(** * Tabs 2.5.1 (jQuery plugin): a shallow embedding of [src/plugins/tabs/tabs.js]

    The DOM of one tab interface is modelled by what the plugin reads and
    writes: the [li] elements of the tab list (the link's [hash], the
    [selectedClass] and the [disabledClass]), the content sections (their
    [id] and whether they are hidden, i.e. carry [hideClass] or are
    [display: none]) and the hide-then-show transitions that a click starts
    and that complete later in the animation callbacks. *)

From Stdlib Require Import List String ZArith Bool Lia.
Import ListNotations.

Local Open Scope string_scope.

(** ** JavaScript values the plugin's arguments can take *)

(** The values passed as [initial] or as a command's position: [undefined],
    [null], a boolean, an integral number or [NaN]. *)
Inductive jsval :=
| JUndefined
| JNull
| JBool (b : bool)
| JNum (z : Z)
| JNaN.

(** JavaScript truthiness ([if (v)], [v && ...], [v || ...]). *)
Definition js_truthy (v : jsval) : bool :=
  match v with
  | JUndefined | JNull | JNaN => false
  | JBool b => b
  | JNum z => negb (Z.eqb z 0)
  end.

(** [typeof v == 'number']. *)
Definition js_is_number (v : jsval) : bool :=
  match v with
  | JNum _ | JNaN => true
  | _ => false
  end.

(** [v > 0] (with [ToNumber]: [true] is 1, [null] is 0, [undefined] NaN). *)
Definition js_gt0 (v : jsval) : bool :=
  match v with
  | JNum z => Z.ltb 0 z
  | JBool b => b
  | JNull | JUndefined | JNaN => false
  end.

(** [v - 1] (also [--v]). *)
Definition js_minus1 (v : jsval) : jsval :=
  match v with
  | JNum z => JNum (z - 1)
  | JBool b => JNum (if b then 0 else -1)
  | JNull => JNum (-1)
  | JUndefined | JNaN => JNaN
  end.

(** jQuery's [.eq(n)] and the selector [':eq(' + n + ')']: the element whose
    0-based index in the matched set equals [n]; none for any other value. *)
Definition eq_sel (n : jsval) (k : nat) : bool :=
  match n with
  | JNum z => Z.eqb (Z.of_nat k) z
  | _ => false
  end.

Definition eq_index (n : jsval) : option nat :=
  match n with
  | JNum z => if Z.leb 0 z then Some (Z.to_nat z) else None
  | _ => None
  end.

(** ** Data model *)

(** One tab: the [hash] of its link ([this.hash], with the leading [#]) and
    the state classes of its [li] ([this.parentNode]). *)
Record tab := mkTab {
  hash : string;
  is_selected : bool;   (* li carries settings.selectedClass *)
  is_disabled : bool    (* li carries settings.disabledClass *)
}.

(** One content section ([$('>' + settings.tabStruct, container)]). *)
Record section := mkSection {
  sid : string;         (* the element's id *)
  hidden : bool         (* [:hidden]: carries hideClass / display none *)
}.

(** A transition started by the click handler: [clicked] is the index of the
    clicked link, [toShow] the id of [$(this.hash)], [toHide] the ids of
    [$('>' + settings.tabStruct + ':visible', container)] at click time. *)
Record transition := mkTransition {
  clicked : nat;
  toShow : string;
  toHide : list string
}.

(** The state of one container: [tabs] is [$('>ul:eq(0)>li>a', this)];
    [elsewhere] are the elements of the rest of the page that carry an id,
    in document order, which a link's fragment may also name. *)
Record widget := mkWidget {
  tabs : list tab;
  sections : list section;
  pending : list transition;
  elsewhere : list section
}.

(** The [settings] object built by [$.fn.tabs] (the fields the behaviour
    depends on; the fx options only choose animations). *)
Record settings := mkSettings {
  initial : jsval;
  disabled : option (list Z);
  bookmarkable : bool
}.

Inductive browser := MSIE | Safari | OtherBrowser.

(** The page around the widget: the browser and [location.hash]. *)
Record page := mkPage {
  pg_widget : widget;
  location_hash : string
}.

(** ** List helpers *)

Fixpoint mapi_from {A B} (f : nat -> A -> B) (k : nat) (l : list A) : list B :=
  match l with
  | [] => []
  | x :: l' => f k x :: mapi_from f (S k) l'
  end.

Definition mapi {A B} (f : nat -> A -> B) (l : list A) : list B := mapi_from f 0 l.

Fixpoint find_index_from {A} (p : A -> bool) (k : nat) (l : list A) : option nat :=
  match l with
  | [] => None
  | x :: l' => if p x then Some k else find_index_from p (S k) l'
  end.

Definition find_index {A} (p : A -> bool) (l : list A) : option nat :=
  find_index_from p 0 l.

Fixpoint remove_nth {A} (k : nat) (l : list A) : list A :=
  match k, l with
  | _, [] => []
  | 0, _ :: l' => l'
  | S k', x :: l' => x :: remove_nth k' l'
  end.

(** [$(hash)]: the section whose id the fragment names. *)
Definition find_section (h : string) (ss : list section) : option section :=
  find (fun s => String.eqb ("#" ++ sid s) h) ss.

(** [$(hash)] ([document.getElementById]): the element of the page that
    the fragment names, a section of the container or an element elsewhere
    on the page. Ids are unique on a page, as HTML requires; the
    container's sections are searched first. *)
Definition find_element (h : string) (w : widget) : option section :=
  find_section h (sections w ++ elsewhere w).

(** [$(hash).is(':hidden')]: false when no element matches. *)
Definition section_is_hidden (h : string) (w : widget) : bool :=
  match find_element h w with
  | Some s => hidden s
  | None => false
  end.

Definition set_disabled (b : bool) (i : nat) (w : widget) : widget :=
  mkWidget
    (mapi (fun k t => if Nat.eqb k i then mkTab (hash t) (is_selected t) b else t) (tabs w))
    (sections w) (pending w) (elsewhere w).

(** ** The click handler ([tabs.bind('click', ...)], lines 363-432) *)

Inductive alert := NoSuchContainer.   (* alert('There is no such container.') *)

(** What one run of the handler produces: the new widget state, the alert it
    raised if any, and its return value (false suppresses the browser's
    default navigation to the fragment). *)
Record click_result := mkClickResult {
  cr_widget : widget;
  cr_alert : option alert;
  cr_return : bool
}.

(** The handler of the [i]-th link [t]. The scroll restoring and [blur] at
    the end change no widget state. An existing [toShow] queues the
    hide-then-show transition, whose callbacks run in [complete]. *)
Definition click_handler (st : settings) (i : nat) (t : tab) (w : widget) : click_result :=
  if is_disabled t then mkClickResult w None false
  else if negb (is_selected t) then
    match find_element (hash t) w with
    | Some s =>
        let hide := map sid (filter (fun s' => negb (hidden s')) (sections w)) in
        mkClickResult
          (mkWidget (tabs w) (sections w) (pending w ++ [mkTransition i (sid s) hide])
             (elsewhere w))
          None (bookmarkable st)
    | None => mkClickResult w (Some NoSuchContainer) (bookmarkable st)
    end
  else mkClickResult w None (bookmarkable st).

(** A click on the [i]-th link; [None] when there is no such link (no
    element, no handler). *)
Definition click (st : settings) (i : nat) (w : widget) : option click_result :=
  match nth_error (tabs w) i with
  | Some t => Some (click_handler st i t w)
  | None => None
  end.

(** The widget after a click (unchanged when there is no such link). *)
Definition click_widget (st : settings) (i : nat) (w : widget) : widget :=
  match click st i w with
  | Some r => cr_widget r
  | None => w
  end.

(** [toShow.removeClass(hideClass).animate(showAnim)] on an element
    elsewhere on the page: the first element there with the id [i]. *)
Fixpoint show_first (i : string) (l : list section) : list section :=
  match l with
  | [] => []
  | s :: l' => if String.eqb (sid s) i then mkSection (sid s) false :: l'
               else s :: show_first i l'
  end.

(** The animation callbacks of a transition (lines 396-413): jQuery runs the
    completion callback of [toHide.animate] once per element of [toHide], so
    none runs when [toHide] is empty; otherwise the clicked [li] gets
    [selectedClass] and its siblings lose it, [toShow] is shown (a section of
    the container, or else the element elsewhere on the page that [$(hash)]
    found), and finally every element of [toHide] (sections of the
    container) gets [hideClass]. *)
Definition apply_transition (tr : transition) (w : widget) : widget :=
  match toHide tr with
  | [] => w
  | _ :: _ =>
      mkWidget
        (mapi (fun k t => mkTab (hash t) (Nat.eqb k (clicked tr)) (is_disabled t)) (tabs w))
        (map (fun s =>
                if existsb (String.eqb (sid s)) (toHide tr) then mkSection (sid s) true
                else if String.eqb (sid s) (toShow tr) then mkSection (sid s) false
                else s) (sections w))
        (pending w)
        (if existsb (fun s => String.eqb (sid s) (toShow tr)) (sections w) then elsewhere w
         else show_first (toShow tr) (elsewhere w))
  end.

(** The [k]-th transition in flight completes. *)
Definition complete (k : nat) (w : widget) : widget :=
  match nth_error (pending w) k with
  | Some tr => apply_transition tr (mkWidget (tabs w) (sections w) (remove_nth k (pending w)) (elsewhere w))
  | None => w
  end.

(** ** The custom events (lines 303-360) *)

(** [triggerTab] on the [i]-th link [t] (lines 303-336). The location is
    [location.hash]; a programmatic [$(this).click()] runs the handler only
    (jQuery does not follow an anchor on a triggered click). The Safari
    branch submits a form whose action is the fragment, which navigates to
    it. In the remaining browsers with bookmarking on only [location.hash]
    is set; the click is then left to the history plugin. *)
Definition trigger_handler (br : browser) (st : settings) (i : nat) (t : tab) (p : page) : page :=
  let w := pg_widget p in
  if section_is_hidden (hash t) w && negb (is_disabled t) then
    match br with
    | MSIE =>
        mkPage (click_widget st i w)
          (if bookmarkable st then hash t else location_hash p)
    | Safari => mkPage (click_widget st i w) (hash t)
    | OtherBrowser =>
        if bookmarkable st then mkPage w (hash t)
        else mkPage (click_widget st i w) (location_hash p)
    end
  else p.

Inductive tab_event := TriggerTab | DisableTab | EnableTab.

Definition run_event (br : browser) (st : settings) (ev : tab_event) (i : nat) (p : page) : page :=
  match nth_error (tabs (pg_widget p)) i with
  | None => p
  | Some t =>
      match ev with
      | TriggerTab => trigger_handler br st i t p
      | DisableTab => mkPage (set_disabled true i (pg_widget p)) (location_hash p)
      | EnableTab => mkPage (set_disabled false i (pg_widget p)) (location_hash p)
      end
  end.

(** [tabIndex && tabIndex > 0 && tabIndex - 1 || 0] (line 495). *)
Definition tab_event_index (tabIndex : jsval) : jsval :=
  let a := if js_truthy tabIndex
           then (if js_gt0 tabIndex then js_minus1 tabIndex else JBool false)
           else tabIndex in
  if js_truthy a then a else JNum 0.

(** [$(c).triggerTab(pos)], [$(c).disableTab(pos)], [$(c).enableTab(pos)]
    (lines 490-500): [$('>ul:eq(0)>li>a', this).eq(i).trigger(tabEvent)]. *)
Definition tab_command (br : browser) (st : settings) (ev : tab_event) (pos : jsval) (p : page) : page :=
  match eq_index (tab_event_index pos) with
  | Some i => run_event br st ev i p
  | None => p
  end.

(** A user click on the [i]-th link: the handler, then the browser's default
    navigation to the fragment when the handler returned true. *)
Definition user_click (st : settings) (i : nat) (p : page) : page * option alert :=
  match click st i (pg_widget p) with
  | Some r =>
      (mkPage (cr_widget r)
         (if cr_return r then
            match nth_error (tabs (pg_widget p)) i with
            | Some t => hash t
            | None => location_hash p
            end
          else location_hash p), cr_alert r)
  | None => (p, None)
  end.

(** ** Initialization ([$.fn.tabs], lines 134-199 and 343-348) *)

(** The options object passed by the caller; [None] is an absent key. *)
Record user_settings := mkUserSettings {
  u_initial : option jsval;
  u_disabled : option (list Z);
  u_bookmarkable : option bool
}.

(** The first argument: a position, or the options object itself. *)
Inductive tabs_arg :=
| ArgValue (v : jsval)
| ArgObject (u : user_settings).

(** Lines 137-157: [$.extend(defaults, settings || {})]; [ajaxHistory] says
    whether the History/Remote plugin is loaded. [typeof null == 'object'],
    so [tabs(null)] also replaces the options by [null]. *)
Definition make_settings (ajaxHistory : bool) (arg : tabs_arg) (opts : option user_settings) : settings :=
  let '(init, opts') :=
    match arg with
    | ArgObject u => (JUndefined, Some u)
    | ArgValue JNull => (JNull, None)
    | ArgValue v => (v, opts)
    end in
  let def_initial :=
    if js_truthy init && js_is_number init && js_gt0 init then js_minus1 init else JNum 0 in
  match opts' with
  | None => mkSettings def_initial None ajaxHistory
  | Some u =>
      mkSettings
        (match u_initial u with Some v => v | None => def_initial end)
        (u_disabled u)
        (match u_bookmarkable u with Some b => b | None => ajaxHistory end)
  end.

(** The markup of one container: the links' fragments, in order, the ids
    of the content sections, in order, and the elements of the rest of the
    page that carry an id. *)
Record markup := mkMarkup {
  link_hashes : list string;
  section_ids : list string;
  outside : list section
}.

(** Lines 172-189: if [location.hash] is not empty, the first link of this
    container whose hash equals it sets [settings.initial] (of the object
    shared by all containers of the call). *)
Definition hash_initial (loc : string) (st : settings) (m : markup) : settings :=
  if String.eqb loc "" then st
  else match find_index (fun h => String.eqb h loc) (link_hashes m) with
       | Some i => mkSettings (JNum (Z.of_nat i)) (disabled st) (bookmarkable st)
       | None => st
       end.

(** Lines 196-199: the section [:eq(settings.initial)] is shown, the others
    get [hideClass], and the [li] [:eq(settings.initial)] gets
    [selectedClass]. *)
Definition highlight (n : jsval) (m : markup) : widget :=
  mkWidget
    (mapi (fun k h => mkTab h (eq_sel n k) false) (link_hashes m))
    (mapi (fun k i => mkSection i (negb (eq_sel n k))) (section_ids m))
    [] (outside m).

(** Lines 344-348: [tabs.eq(--settings.disabled[i]).trigger('disableTab')]
    for each entry, decrementing the entry of the caller's array in place;
    the array with its new entries is returned. *)
Fixpoint disable_from_settings (ds : list Z) (w : widget) : list Z * widget :=
  match ds with
  | [] => ([], w)
  | d :: ds' =>
      let d' := (d - 1)%Z in
      let w1 := match eq_index (JNum d') with
                | Some i => match nth_error (tabs w) i with
                            | Some _ => set_disabled true i w
                            | None => w
                            end
                | None => w
                end in
      let '(ds'', w2) := disable_from_settings ds' w1 in
      (d' :: ds'', w2)
  end.

(** The body of [this.each] for one container: the settings object after it
    (shared with the next container) and the container's widget. *)
Definition init_container (loc : string) (st : settings) (m : markup) : settings * widget :=
  let st1 := hash_initial loc st m in
  let w0 := highlight (initial st1) m in
  match disabled st1 with
  | Some ((_ :: _) as ds) =>
      let '(ds', w1) := disable_from_settings ds w0 in
      (mkSettings (initial st1) (Some ds') (bookmarkable st1), w1)
  | _ => (st1, w0)
  end.

(** [this.each(...)] over the containers of the jQuery object, threading the
    one [settings] object through them. *)
Fixpoint init_all (loc : string) (st : settings) (ms : list markup) : list widget :=
  match ms with
  | [] => []
  | m :: ms' =>
      let '(st', w) := init_container loc st m in
      w :: init_all loc st' ms'
  end.

(** [$(containers).tabs(initial, settings)] at the page location [loc]. *)
Definition fn_tabs (ajaxHistory : bool) (loc : string) (arg : tabs_arg)
    (opts : option user_settings) (ms : list markup) : list widget :=
  init_all loc (make_settings ajaxHistory arg opts) ms.

(** ** Observations *)

Fixpoint indices_from {A} (p : A -> bool) (k : nat) (l : list A) : list nat :=
  match l with
  | [] => []
  | x :: l' => if p x then k :: indices_from p (S k) l' else indices_from p (S k) l'
  end.

(** The indices of the tabs whose [li] carries [selectedClass]. *)
Definition selected_indices (w : widget) : list nat :=
  indices_from is_selected 0 (tabs w).

(** The ids of the visible sections. *)
Definition visible_sections (w : widget) : list string :=
  map sid (filter (fun s => negb (hidden s)) (sections w)).

Definition count_selected (w : widget) : nat := List.length (selected_indices w).

Definition count_visible (w : widget) : nat := List.length (visible_sections w).

(** Every tab's [li] carries [selectedClass] exactly when its index is [j]. *)
Definition selected_exactly (j : nat) (w : widget) : Prop :=
  j < List.length (tabs w) /\
  forall k t, nth_error (tabs w) k = Some t -> is_selected t = true <-> k = j.

(** The section at index [j] is the only visible one. *)
Definition visible_exactly (j : nat) (w : widget) : Prop :=
  j < List.length (sections w) /\
  forall k s, nth_error (sections w) k = Some s -> hidden s = false <-> k = j.

(** The selected tab and the visible section are the [j]-th ones. *)
Definition consistent (w : widget) : Prop :=
  exists j, selected_exactly j w /\ visible_exactly j w.

(** The markup contract: the [k]-th link points to the [k]-th section, and
    section ids are distinct. *)
Definition well_formed (w : widget) : Prop :=
  map (fun s => "#" ++ sid s) (sections w) = map hash (tabs w) /\
  NoDup (map sid (sections w)).

Definition at_most_one_selected (w : widget) : Prop :=
  forall a b ta tb, nth_error (tabs w) a = Some ta -> nth_error (tabs w) b = Some tb ->
    is_selected ta = true -> is_selected tb = true -> a = b.

(** ** Runs of the page: clicks, completed transitions, commands *)

Section Steps.
Variable br : browser.
Variable st : settings.

Inductive step : page -> page -> Prop :=
| step_click i p : step p (fst (user_click st i p))
| step_complete k p : step p (mkPage (complete k (pg_widget p)) (location_hash p))
| step_command ev pos p : step p (tab_command br st ev pos p).

Inductive steps : page -> page -> Prop :=
| steps_refl p : steps p p
| steps_cons p q r : step p q -> steps q r -> steps p r.
End Steps.

(** A run spelled out: the actions of the steps, in order. *)
Inductive action :=
| AClick (i : nat)
| AComplete (k : nat)
| ACommand (ev : tab_event) (pos : jsval).

Definition exec (br : browser) (st : settings) (a : action) (p : page) : page :=
  match a with
  | AClick i => fst (user_click st i p)
  | AComplete k => mkPage (complete k (pg_widget p)) (location_hash p)
  | ACommand ev pos => tab_command br st ev pos p
  end.

Fixpoint run (br : browser) (st : settings) (acts : list action) (p : page) : page :=
  match acts with
  | [] => p
  | a :: acts' => run br st acts' (exec br st a p)
  end.

(** The action is [enableTab] at a position that names the [j]-th tab. *)
Definition enables (j : nat) (a : action) : bool :=
  match a with
  | ACommand EnableTab pos =>
      match eq_index (tab_event_index pos) with
      | Some i => Nat.eqb i j
      | None => false
      end
  | _ => false
  end.

(** ** Auto height ([settings.fxAutoHeight], lines 202-259) *)

(** [Array.prototype.sort] with the comparator [b - a] orders the heights
    from largest to smallest; every correct sort yields this list. *)
Fixpoint insert_desc (x : Z) (l : list Z) : list Z :=
  match l with
  | [] => [x]
  | y :: l' => if Z.geb x y then x :: l else y :: insert_desc x l'
  end.

Fixpoint sort_desc (l : list Z) : list Z :=
  match l with
  | [] => []
  | x :: l' => insert_desc x (sort_desc l')
  end.

(** The height [jq.height()] measures for a section of natural height [n]:
    with [reset] the [min-height] is cleared first; otherwise the
    [min-height] [mh] set by the previous run still holds the box up. *)
Definition measured_height (reset : bool) (mh : option Z) (n : Z) : Z :=
  if reset then n
  else match mh with
       | Some m => Z.max n m
       | None => n
       end.

(** [_setAutoHeight(reset)]: the [min-height] applied to every section is
    [heights[0]], the largest measured height; [None] stands for
    [heights[0]] being [undefined] (no section). *)
Definition set_auto_height (reset : bool) (mh : option Z) (naturals : list Z) : option Z :=
  hd_error (sort_desc (map (measured_height reset mh) naturals)).

(** The sizes the 50 ms timer watches: the container's [offsetWidth] and
    [offsetHeight] and the [offsetHeight] of the hidden font-size probe. *)
Record dims := mkDims {
  d_width : Z;
  d_height : Z;
  d_fontsize : Z
}.

(** One tick of the timer (lines 248-258): whether [_setAutoHeight] runs,
    with which [reset] flag, and the cached sizes afterwards. *)
Definition poll (cached current : dims) : option bool * dims :=
  if Z.ltb (d_height cached) (d_height current)
     || negb (Z.eqb (d_width current) (d_width cached))
     || negb (Z.eqb (d_fontsize current) (d_fontsize cached))
  then (Some (Z.ltb (d_width cached) (d_width current)
              || Z.ltb (d_fontsize current) (d_fontsize cached)), current)
  else (None, cached).

(** A tick together with the [min-height] it leaves on the sections. *)
Definition auto_height_tick (cached : dims) (mh : option Z) (current : dims)
    (naturals : list Z) : dims * option Z :=
  match poll cached current with
  | (Some reset, c') => (c', set_auto_height reset mh naturals)
  | (None, c') => (c', mh)
  end.

(** ** Animations (lines 261-289) *)

(** A speed: one of jQuery's names ("slow", "normal", "fast") or a number
    of milliseconds. *)
Inductive speed :=
| SpeedName (s : string)
| SpeedMs (ms : Z).

Definition speed_truthy (sp : speed) : bool :=
  match sp with
  | SpeedName s => negb (String.eqb s "")
  | SpeedMs z => negb (Z.eqb z 0)
  end.

(** [a || b] on an optional speed ([null] when absent). *)
Definition speed_or (a : option speed) (b : speed) : speed :=
  match a with
  | Some s => if speed_truthy s then s else b
  | None => b
  end.

(** An animation descriptor: the properties of the object literal, in the
    order they were set. An object is truthy even when empty. *)
Definition anim := list (string * string).

Record fx_options := mkFx {
  fxFade : bool;
  fxSlide : bool;
  fxShow : option anim;
  fxHide : option anim;
  fxSpeed : speed;
  fxShowSpeed : option speed;
  fxHideSpeed : option speed
}.

Record fx_setup := mkFxSetup {
  showAnim : anim;
  showSpeed : speed;
  hideAnim : anim;
  hideSpeed : speed
}.

Definition setup_animations (o : fx_options) (bookmarkable : bool) : fx_setup :=
  if fxSlide o || fxFade o then
    mkFxSetup
      ((if fxSlide o then [("height", "show")] else []) ++
       (if fxFade o then [("opacity", "show")] else []))%list
      (fxSpeed o)
      ((if fxSlide o then [("height", "hide")] else []) ++
       (if fxFade o then [("opacity", "hide")] else []))%list
      (fxSpeed o)
  else
    let '(sa, ss) := match fxShow o with
                     | Some a => (a, speed_or (fxShowSpeed o) (fxSpeed o))
                     | None => ([("opacity", "show")], SpeedMs (if bookmarkable then 50 else 1))
                     end in
    let '(ha, hs) := match fxHide o with
                     | Some a => (a, speed_or (fxHideSpeed o) (fxSpeed o))
                     | None => ([("opacity", "hide")], SpeedMs (if bookmarkable then 50 else 1))
                     end in
    mkFxSetup sa ss ha hs.

(** ** The history plugin's ready callback (lines 295-300) *)

(** [$('>ul:eq(0)>li>a', container).eq(settings.initial).click()]. *)
Definition history_ready (st : settings) (w : widget) : widget :=
  match eq_index (initial st) with
  | Some i => click_widget st i w
  | None => w
  end.

(** ** Generic lemmas *)

Lemma nth_error_mapi_from {A B} (f : nat -> A -> B) l n k :
  nth_error (mapi_from f n l) k = option_map (f (n + k)) (nth_error l k).
Proof.
  revert n k; induction l as [|x l IH]; intros n k; destruct k; simpl; auto.
  - rewrite Nat.add_0_r; reflexivity.
  - rewrite IH; f_equal; f_equal; lia.
Qed.

Lemma nth_error_mapi {A B} (f : nat -> A -> B) l k :
  nth_error (mapi f l) k = option_map (f k) (nth_error l k).
Proof. apply nth_error_mapi_from. Qed.

Lemma length_mapi_from {A B} (f : nat -> A -> B) l n :
  List.length (mapi_from f n l) = List.length l.
Proof. revert n; induction l; simpl; auto. Qed.

Lemma length_mapi {A B} (f : nat -> A -> B) l : List.length (mapi f l) = List.length l.
Proof. apply length_mapi_from. Qed.

Lemma indices_from_single {A} (p : A -> bool) l n j :
  j < List.length l ->
  (forall k x, nth_error l k = Some x -> p x = true <-> k = j) ->
  indices_from p n l = [n + j].
Proof.
  revert n j; induction l as [|x l IH]; intros n j Hj H; simpl in *; [lia|].
  destruct j as [|j].
  - assert (Hx : p x = true) by (apply (H 0 x); auto).
    rewrite Hx, Nat.add_0_r.
    assert (Hn : forall n', indices_from p n' l = []).
    { clear IH Hj Hx. intros n'. assert (Hl : forall k y, nth_error l k = Some y -> p y = false).
      { intros k y Hk. destruct (p y) eqn:E; auto. apply (H (S k) y) in E; auto. discriminate. }
      clear H; revert n'; induction l as [|y l IHl]; intros n'; simpl; auto.
      rewrite (Hl 0 y eq_refl). apply IHl. intros k z Hk; apply (Hl (S k)); auto. }
    rewrite Hn; reflexivity.
  - assert (Hx : p x = false).
    { destruct (p x) eqn:E; auto. apply (H 0 x) in E; auto. discriminate. }
    rewrite Hx. rewrite (IH (S n) j); [f_equal; lia | lia |].
    intros k y Hk. specialize (H (S k) y Hk). simpl in H. split; intros E.
    + apply H in E; lia.
    + apply H; lia.
Qed.

Lemma filter_single {A} (p : A -> bool) l j y :
  nth_error l j = Some y ->
  (forall k x, nth_error l k = Some x -> p x = true <-> k = j) ->
  filter p l = [y].
Proof.
  revert j; induction l as [|x l IH]; intros j Hj H; [destruct j; discriminate|].
  simpl. destruct j as [|j].
  - simpl in Hj; injection Hj as <-.
    assert (Hx : p x = true) by (apply (H 0 x); auto). rewrite Hx. f_equal.
    assert (Hl : forall k z, nth_error l k = Some z -> p z = false).
    { intros k z Hk. destruct (p z) eqn:E; auto. apply (H (S k) z) in E; auto. discriminate. }
    clear IH H Hx. induction l as [|z l IHl]; simpl; auto.
    rewrite (Hl 0 z eq_refl). apply IHl. intros k u Hk; apply (Hl (S k)); auto.
  - assert (Hx : p x = false).
    { destruct (p x) eqn:E; auto. apply (H 0 x) in E; auto. discriminate. }
    rewrite Hx. apply (IH j Hj). intros k z Hk. specialize (H (S k) z Hk). simpl in H.
    split; intros E; [apply H in E; lia | apply H; lia].
Qed.

Lemma selected_exactly_indices j w :
  selected_exactly j w -> selected_indices w = [j].
Proof.
  intros [Hj H]. unfold selected_indices. apply (indices_from_single _ _ 0 j Hj H).
Qed.

Lemma visible_exactly_sections j w :
  visible_exactly j w ->
  exists s, nth_error (sections w) j = Some s /\ visible_sections w = [sid s].
Proof.
  intros [Hj H].
  destruct (nth_error (sections w) j) as [s|] eqn:E.
  2: { apply nth_error_None in E; lia. }
  exists s; split; auto. unfold visible_sections.
  rewrite (filter_single _ _ j s E); auto.
  intros k x Hk. rewrite negb_true_iff. apply H; auto.
Qed.

Lemma consistent_counts w :
  consistent w -> count_selected w = 1 /\ count_visible w = 1.
Proof.
  intros [j [Hs Hv]]. unfold count_selected, count_visible.
  rewrite (selected_exactly_indices j w Hs).
  destruct (visible_exactly_sections j w Hv) as [s [_ ->]]. split; reflexivity.
Qed.

Lemma map_mapi_from {A B C} (f : nat -> A -> B) (g : B -> C) (h : A -> C) l n :
  (forall k x, g (f k x) = h x) -> map g (mapi_from f n l) = map h l.
Proof.
  intros H; revert n; induction l as [|x l IH]; intros n; simpl; auto.
  rewrite H, IH; reflexivity.
Qed.

Lemma map_mapi {A B C} (f : nat -> A -> B) (g : B -> C) (h : A -> C) l :
  (forall k x, g (f k x) = h x) -> map g (mapi f l) = map h l.
Proof. apply map_mapi_from. Qed.

Lemma selected_exactly_transfer j w w' :
  map is_selected (tabs w') = map is_selected (tabs w) ->
  selected_exactly j w -> selected_exactly j w'.
Proof.
  intros E [Hj H]. split.
  - rewrite <- (length_map is_selected (tabs w')), E, length_map; exact Hj.
  - intros k t' Hk.
    assert (Hm : nth_error (map is_selected (tabs w')) k = Some (is_selected t'))
      by (rewrite nth_error_map, Hk; reflexivity).
    rewrite E, nth_error_map in Hm.
    destruct (nth_error (tabs w) k) as [t|] eqn:Et; simpl in Hm; [|discriminate].
    injection Hm as <-. apply (H k t Et).
Qed.

Lemma at_most_one_transfer w w' :
  map is_selected (tabs w') = map is_selected (tabs w) ->
  at_most_one_selected w -> at_most_one_selected w'.
Proof.
  intros E H a b ta tb Ha Hb Sa Sb.
  assert (Ma : nth_error (map is_selected (tabs w)) a = Some true)
    by (rewrite <- E, nth_error_map, Ha; simpl; rewrite Sa; reflexivity).
  assert (Mb : nth_error (map is_selected (tabs w)) b = Some true)
    by (rewrite <- E, nth_error_map, Hb; simpl; rewrite Sb; reflexivity).
  rewrite nth_error_map in Ma, Mb.
  destruct (nth_error (tabs w) a) as [ta'|] eqn:Ea; [|discriminate].
  destruct (nth_error (tabs w) b) as [tb'|] eqn:Eb; [|discriminate].
  injection Ma; injection Mb; intros; eapply H; eauto.
Qed.

Lemma set_disabled_selected b i w :
  map is_selected (tabs (set_disabled b i w)) = map is_selected (tabs w).
Proof.
  unfold set_disabled; simpl. apply map_mapi. intros k t; destruct (Nat.eqb k i); reflexivity.
Qed.

Lemma set_disabled_hashes b i w :
  map hash (tabs (set_disabled b i w)) = map hash (tabs w).
Proof.
  unfold set_disabled; simpl. apply map_mapi. intros k t; destruct (Nat.eqb k i); reflexivity.
Qed.

Lemma disable_from_settings_frame ds w :
  let w' := snd (disable_from_settings ds w) in
  map is_selected (tabs w') = map is_selected (tabs w) /\
  map hash (tabs w') = map hash (tabs w) /\
  sections w' = sections w /\ pending w' = pending w.
Proof.
  revert w; induction ds as [|d ds IH]; intros w; [simpl; auto|].
  cbn [disable_from_settings].
  match goal with |- context [disable_from_settings ds ?x] => set (w1 := x) end.
  assert (H1 : map is_selected (tabs w1) = map is_selected (tabs w) /\
               map hash (tabs w1) = map hash (tabs w) /\
               sections w1 = sections w /\ pending w1 = pending w).
  { unfold w1. destruct (eq_index (JNum (d - 1))) as [i|]; [|auto].
    destruct (nth_error (tabs w) i); [|auto].
    split; [apply set_disabled_selected|split; [apply set_disabled_hashes|auto]]. }
  specialize (IH w1). destruct (disable_from_settings ds w1) as [ds'' w2]; simpl in *.
  destruct IH as [A [B [C D]]]; destruct H1 as [A' [B' [C' D']]].
  rewrite A, B, C, D, A', B', C', D'; auto.
Qed.

Lemma init_container_frame loc st m :
  let w := snd (init_container loc st m) in
  let w0 := highlight (initial (hash_initial loc st m)) m in
  map is_selected (tabs w) = map is_selected (tabs w0) /\
  map hash (tabs w) = map hash (tabs w0) /\
  sections w = sections w0 /\ pending w = [].
Proof.
  unfold init_container; cbv zeta.
  destruct (disabled (hash_initial loc st m)) as [[|d ds]|]; [repeat split| |repeat split].
  pose proof (disable_from_settings_frame (d :: ds)
                (highlight (initial (hash_initial loc st m)) m)) as H.
  destruct (disable_from_settings (d :: ds) _) as [ds' w1]; cbn [snd] in *.
  destruct H as [A [B [C D]]]; repeat split; auto.
Qed.

(** The markup contract for a container: the [k]-th link's fragment names
    the [k]-th section, and the section ids are distinct. *)
Definition markup_ok (m : markup) : Prop :=
  map (fun i => "#" ++ i) (section_ids m) = link_hashes m /\ NoDup (section_ids m).

Lemma eq_sel_nat n k : eq_sel (JNum (Z.of_nat n)) k = Nat.eqb k n.
Proof.
  unfold eq_sel. destruct (Nat.eqb k n) eqn:E.
  - apply Nat.eqb_eq in E; subst; apply Z.eqb_refl.
  - apply Z.eqb_neq. intros H; apply Nat2Z.inj in H. apply Nat.eqb_neq in E; auto.
Qed.

Lemma init_consistent loc st m k :
  markup_ok m ->
  initial (hash_initial loc st m) = JNum (Z.of_nat k) ->
  k < List.length (link_hashes m) ->
  consistent (snd (init_container loc st m)) /\ well_formed (snd (init_container loc st m)).
Proof.
  intros [Hm Hnd] Hi Hk.
  destruct (init_container_frame loc st m) as [A [B [C _]]].
  set (w := snd (init_container loc st m)) in *. rewrite Hi in A, B, C.
  assert (Hlen : List.length (section_ids m) = List.length (link_hashes m))
    by (rewrite <- Hm, length_map; reflexivity).
  split.
  - exists k; split.
    + apply (selected_exactly_transfer k (highlight (JNum (Z.of_nat k)) m)); auto.
      unfold highlight; split; cbn [tabs]; [rewrite length_mapi; exact Hk|].
      intros k' t Ht. rewrite nth_error_mapi in Ht.
      destruct (nth_error (link_hashes m) k'); simpl in Ht; [|discriminate].
      injection Ht as <-; cbn [is_selected].
      rewrite Z.eqb_eq; split; [apply Nat2Z.inj | intros ->; reflexivity].
    + unfold visible_exactly; rewrite C. unfold highlight; split; cbn [sections]; [rewrite length_mapi; lia|].
      intros k' s Hs. rewrite nth_error_mapi in Hs.
      destruct (nth_error (section_ids m) k'); simpl in Hs; [|discriminate].
      injection Hs as <-; cbn [hidden].
      rewrite negb_false_iff, Z.eqb_eq; split; [apply Nat2Z.inj | intros ->; reflexivity].
  - unfold well_formed; split.
    + rewrite C, B. simpl.
      rewrite (map_mapi _ (fun s => "#" ++ sid s) (fun i => "#" ++ i)) by reflexivity.
      rewrite (map_mapi _ hash (fun h => h)) by reflexivity.
      rewrite map_id; exact Hm.
    + rewrite C. simpl. rewrite (map_mapi _ sid (fun i => i)) by reflexivity.
      rewrite map_id; exact Hnd.
Qed.

Lemma nodup_sid_inj l a b x y :
  NoDup (map sid l) -> nth_error l a = Some x -> nth_error l b = Some y -> sid x = sid y -> a = b.
Proof.
  intros Hnd Ha Hb E. rewrite NoDup_nth_error in Hnd. apply Hnd.
  - rewrite length_map. apply nth_error_Some. rewrite Ha; discriminate.
  - rewrite !nth_error_map, Ha, Hb; simpl; rewrite E; reflexivity.
Qed.

Lemma well_formed_section_of w i t :
  well_formed w -> nth_error (tabs w) i = Some t ->
  exists s, nth_error (sections w) i = Some s /\ "#" ++ sid s = hash t.
Proof.
  intros [Hh _] Ht.
  assert (E : nth_error (map (fun s => "#" ++ sid s) (sections w)) i = Some (hash t))
    by (rewrite Hh, nth_error_map, Ht; reflexivity).
  rewrite nth_error_map in E.
  destruct (nth_error (sections w) i) as [s|]; simpl in E; [|discriminate].
  injection E as E; eauto.
Qed.

Lemma find_section_some h ss s :
  find_section h ss = Some s -> "#" ++ sid s = h.
Proof.
  unfold find_section; intros E. apply find_some in E. destruct E as [_ E].
  apply String.eqb_eq; exact E.
Qed.

Lemma find_section_exists h ss s :
  In s ss -> "#" ++ sid s = h -> exists s', find_section h ss = Some s'.
Proof.
  intros Hin E. unfold find_section.
  destruct (find (fun s0 => String.eqb ("#" ++ sid s0) h) ss) as [s'|] eqn:F; eauto.
  apply (find_none _ _ F) in Hin. rewrite E, String.eqb_refl in Hin; discriminate.
Qed.

Lemma sharp_inj a b : "#" ++ a = "#" ++ b -> a = b.
Proof. simpl; intros E; injection E; auto. Qed.

(** The end state of one completed transition from [j] to [i]. *)
Lemma apply_transition_consistent w i j si sj :
  well_formed w -> i < List.length (tabs w) ->
  nth_error (sections w) i = Some si -> nth_error (sections w) j = Some sj -> i <> j ->
  visible_exactly j w ->
  let w' := apply_transition (mkTransition i (sid si) [sid sj]) w in
  selected_exactly i w' /\ visible_exactly i w' /\ well_formed w'.
Proof.
  intros [Hh Hnd] Hi Hsi Hsj Hij [_ Hv] w'.
  set (g := fun s : section =>
              if existsb (String.eqb (sid s)) [sid sj] then mkSection (sid s) true
              else if String.eqb (sid s) (sid si) then mkSection (sid s) false else s).
  assert (Hg : forall s, sid (g s) = sid s).
  { intros s; unfold g; destruct (existsb _ _); [reflexivity|].
    destruct (String.eqb _ _); reflexivity. }
  assert (Ew : w' = mkWidget
                 (mapi (fun k t => mkTab (hash t) (Nat.eqb k i) (is_disabled t)) (tabs w))
                 (map g (sections w)) (pending w)
                 (if existsb (fun s => String.eqb (sid s) (sid si)) (sections w) then elsewhere w
                  else show_first (sid si) (elsewhere w))) by reflexivity.
  rewrite Ew. split; [|split].
  - split; cbn [tabs]; [rewrite length_mapi; exact Hi|].
    intros k t' Ht'. rewrite nth_error_mapi in Ht'.
    destruct (nth_error (tabs w) k); simpl in Ht'; [|discriminate].
    injection Ht' as <-; simpl. apply Nat.eqb_eq.
  - split; cbn [sections]; [rewrite length_map; apply nth_error_Some; rewrite Hsi; discriminate|].
    intros k s' Hs'. rewrite nth_error_map in Hs'.
    destruct (nth_error (sections w) k) as [sk|] eqn:Hk; simpl in Hs'; [|discriminate].
    injection Hs' as <-. unfold g; simpl.
    destruct (String.eqb (sid sk) (sid sj)) eqn:Ej; simpl.
    + apply String.eqb_eq in Ej. pose proof (nodup_sid_inj _ _ _ _ _ Hnd Hk Hsj Ej). subst k.
      split; intros E; [discriminate | congruence].
    + destruct (String.eqb (sid sk) (sid si)) eqn:Ei; simpl.
      * apply String.eqb_eq in Ei. pose proof (nodup_sid_inj _ _ _ _ _ Hnd Hk Hsi Ei).
        split; auto.
      * assert (Hkj : k <> j) by (intros ->; rewrite Hsj in Hk; injection Hk as ->;
                                  rewrite String.eqb_refl in Ej; discriminate).
        assert (Hki : k <> i) by (intros ->; rewrite Hsi in Hk; injection Hk as ->;
                                  rewrite String.eqb_refl in Ei; discriminate).
        specialize (Hv k sk Hk). split; intros E; [apply Hv in E; contradiction | contradiction].
  - split; cbn [sections tabs].
    + rewrite map_map. rewrite (map_ext (fun x => "#" ++ sid (g x)) (fun s => "#" ++ sid s))
        by (intros s; rewrite Hg; reflexivity).
      rewrite (map_mapi _ hash hash) by reflexivity. exact Hh.
    + rewrite map_map, (map_ext (fun x => sid (g x)) sid) by exact Hg. exact Hnd.
Qed.

Lemma complete_idle w : pending w = [] -> complete 0 w = w.
Proof. intros H; unfold complete; rewrite H; reflexivity. Qed.

(** A click, and the completion of the transition it starts when no other
    transition is in flight, keep the widget consistent. *)
Lemma click_complete_consistent st i w :
  well_formed w -> consistent w -> pending w = [] ->
  consistent (complete 0 (click_widget st i w)) /\ well_formed (complete 0 (click_widget st i w)).
Proof.
  intros Hwf Hc Hp.
  unfold click_widget, click.
  destruct (nth_error (tabs w) i) as [t|] eqn:Ht; [|rewrite complete_idle; auto].
  unfold click_handler.
  destruct (is_disabled t); [cbn [cr_widget]; rewrite complete_idle; auto|].
  destruct (is_selected t) eqn:Sel; [cbn [cr_widget negb]; rewrite complete_idle; auto|].
  destruct (well_formed_section_of w i t Hwf Ht) as [si [Hsi Ei]].
  destruct (find_section_exists (hash t) (sections w ++ elsewhere w) si) as [s Hs];
    [apply in_or_app; left; eapply nth_error_In; eauto | exact Ei|].
  cbn [negb]. unfold find_element. rewrite Hs. cbn [cr_widget].
  assert (Es : sid s = sid si)
    by (apply sharp_inj; rewrite (find_section_some _ _ _ Hs); auto).
  destruct Hc as [j [Hsel Hvis]].
  destruct (visible_exactly_sections j w Hvis) as [sj [Hsj Hv]].
  assert (Hij : i <> j).
  { intros ->. destruct Hsel as [_ Hsel].
    assert (E : is_selected t = true) by (apply (Hsel j t Ht); reflexivity). congruence. }
  unfold complete; cbn [pending]. rewrite Hp; cbn [app nth_error remove_nth].
  change (map sid (filter (fun s' => negb (hidden s')) (sections w))) with (visible_sections w).
  rewrite Hv, Es.
  assert (Hi : i < List.length (tabs w)) by (apply nth_error_Some; rewrite Ht; discriminate).
  destruct (apply_transition_consistent (mkWidget (tabs w) (sections w) [] (elsewhere w)) i j si sj)
    as [A [B C]]; cbn [tabs sections]; auto.
  split; [exists i; split|]; auto.
Qed.

Lemma click_handler_tabs st i t w : tabs (cr_widget (click_handler st i t w)) = tabs w.
Proof.
  unfold click_handler.
  destruct (is_disabled t), (is_selected t); try reflexivity; cbn [negb].
  destruct (find_element _ _); reflexivity.
Qed.

Lemma click_widget_tabs st i w : tabs (click_widget st i w) = tabs w.
Proof.
  unfold click_widget, click. destruct (nth_error (tabs w) i); auto using click_handler_tabs.
Qed.

Lemma user_click_tabs st i p : tabs (pg_widget (fst (user_click st i p))) = tabs (pg_widget p).
Proof.
  unfold user_click, click. destruct (nth_error (tabs (pg_widget p)) i); [|reflexivity].
  apply click_handler_tabs.
Qed.

Lemma tab_command_selected br st ev pos p :
  map is_selected (tabs (pg_widget (tab_command br st ev pos p))) =
  map is_selected (tabs (pg_widget p)).
Proof.
  unfold tab_command. destruct (eq_index _) as [i|]; [|reflexivity].
  unfold run_event. destruct (nth_error _ i) as [t|]; [|reflexivity].
  destruct ev; cbn [pg_widget]; try apply set_disabled_selected.
  unfold trigger_handler. destruct (_ && _); [|reflexivity].
  destruct br; [| |destruct (bookmarkable st)]; cbn [pg_widget];
    rewrite ?click_widget_tabs; reflexivity.
Qed.

Lemma complete_at_most_one k w :
  at_most_one_selected w -> at_most_one_selected (complete k w).
Proof.
  intros H. unfold complete.
  destruct (nth_error (pending w) k) as [tr|]; [|exact H].
  unfold apply_transition. destruct (toHide tr); [exact H|].
  intros a b ta tb Ha Hb Sa Sb. cbn [tabs] in Ha, Hb.
  rewrite nth_error_mapi in Ha, Hb.
  destruct (nth_error (tabs w) a); [|discriminate]. destruct (nth_error (tabs w) b); [|discriminate].
  injection Ha as <-; injection Hb as <-. cbn [is_selected] in Sa, Sb.
  apply Nat.eqb_eq in Sa, Sb. congruence.
Qed.

Lemma step_at_most_one br st p q :
  step br st p q -> at_most_one_selected (pg_widget p) -> at_most_one_selected (pg_widget q).
Proof.
  intros Hs H; destruct Hs.
  - apply (at_most_one_transfer (pg_widget p)); auto. rewrite user_click_tabs; reflexivity.
  - apply complete_at_most_one; exact H.
  - apply (at_most_one_transfer (pg_widget p)); auto. apply tab_command_selected.
Qed.

Lemma init_at_most_one loc st m : at_most_one_selected (snd (init_container loc st m)).
Proof.
  destruct (init_container_frame loc st m) as [A _].
  apply (at_most_one_transfer _ _ A).
  intros a b ta tb Ha Hb Sa Sb. unfold highlight in Ha, Hb; cbn [tabs] in Ha, Hb.
  rewrite nth_error_mapi in Ha, Hb.
  destruct (nth_error (link_hashes m) a); [|discriminate].
  destruct (nth_error (link_hashes m) b); [|discriminate].
  injection Ha as <-; injection Hb as <-. cbn [is_selected] in Sa, Sb.
  unfold eq_sel in Sa, Sb. destruct (initial (hash_initial loc st m)); try discriminate.
  apply Z.eqb_eq in Sa, Sb. apply Nat2Z.inj; congruence.
Qed.

Lemma steps_at_most_one br st p q :
  steps br st p q -> at_most_one_selected (pg_widget p) -> at_most_one_selected (pg_widget q).
Proof.
  induction 1 as [p|p q r Hs Hr IH]; intros H; auto. apply IH. eapply step_at_most_one; eauto.
Qed.

(** ** Concrete pages used by the statements below *)

(** Three tabs, each link pointing to the section in the same position. *)
Definition three_tabs : markup :=
  mkMarkup ["#section-1"; "#section-2"; "#section-3"] ["section-1"; "section-2"; "section-3"] [].

Definition plain_settings : settings := make_settings false (ArgValue JUndefined) None.

(** [$('#container').tabs()] with no fragment in the URL. *)
Definition w_first : widget := snd (init_container "" plain_settings three_tabs).

Lemma three_tabs_ok : markup_ok three_tabs.
Proof.
  split; [reflexivity|].
  repeat constructor; simpl; intuition discriminate.
Qed.

(** ** C1: one selected tab and one visible section *)

(** Claim C1 (as stated, refuted). [$('#container').tabs(5)] on three tabs
    selects no tab and hides every section; and two clicks made while the
    first transition is in flight leave, once both transitions complete,
    two visible sections. *)
Lemma tabs_one_selected_counterexample :
  let w := snd (init_container "" (make_settings false (ArgValue (JNum 5)) None) three_tabs) in
  count_selected w = 0 /\ count_visible w = 0 /\
  let w2 := complete 0 (complete 0 (click_widget plain_settings 2
                                     (click_widget plain_settings 1 w_first))) in
  count_selected w2 = 1 /\ count_visible w2 = 2.
Proof. vm_compute. repeat split. Qed.

(** Claim C1 (amended). (1) When the initial index (after the URL fragment
    is resolved) names one of the [N] tabs of a container whose [k]-th link
    points to its [k]-th section, initialization leaves exactly one tab
    selected and exactly one section visible; (2) from such a state with no
    transition in flight, a click followed by the completion of its
    transition leaves exactly one tab selected and one section visible (the
    clicked tab's one, or the unchanged state); (3) in every state reached
    from initialization by clicks, completed transitions and commands, at
    most one tab is selected. *)
Theorem tabs_one_selected_one_visible :
  (forall loc st m k,
      markup_ok m ->
      initial (hash_initial loc st m) = JNum (Z.of_nat k) ->
      k < List.length (link_hashes m) ->
      count_selected (snd (init_container loc st m)) = 1 /\
      count_visible (snd (init_container loc st m)) = 1) /\
  (forall st i w,
      well_formed w -> consistent w -> pending w = [] ->
      count_selected (complete 0 (click_widget st i w)) = 1 /\
      count_visible (complete 0 (click_widget st i w)) = 1 /\
      consistent (complete 0 (click_widget st i w)) /\
      well_formed (complete 0 (click_widget st i w))) /\
  (forall br st loc st0 m p,
      steps br st (mkPage (snd (init_container loc st0 m)) loc) p ->
      at_most_one_selected (pg_widget p)).
Proof.
  split; [|split].
  - intros loc st m k Hm Hi Hk.
    apply consistent_counts. apply (init_consistent loc st m k); auto.
  - intros st i w Hwf Hc Hp.
    destruct (click_complete_consistent st i w Hwf Hc Hp) as [C W].
    destruct (consistent_counts _ C). auto.
  - intros br st loc st0 m p Hs.
    apply (steps_at_most_one br st _ _ Hs). apply init_at_most_one.
Qed.

Lemma tabs_one_selected_one_visible_witness :
  count_selected w_first = 1 /\ count_visible w_first = 1 /\
  count_selected (complete 0 (click_widget plain_settings 1 w_first)) = 1.
Proof.
  destruct tabs_one_selected_one_visible as [P1 [P2 _]].
  assert (H1 : count_selected w_first = 1 /\ count_visible w_first = 1)
    by (apply (P1 "" plain_settings three_tabs 0); [exact three_tabs_ok | reflexivity | simpl; lia]).
  destruct H1 as [A B]. split; [exact A|split; [exact B|]].
  destruct (init_consistent "" plain_settings three_tabs 0 three_tabs_ok eq_refl) as [C W];
    [simpl; lia|].
  apply (P2 plain_settings 1 w_first W C). reflexivity.
Defined.

(** ** C2 and C9: the settings object shared by the containers of one call *)

Definition markup_a : markup := mkMarkup ["#a1"; "#a2"; "#a3"] ["a1"; "a2"; "a3"] [].
Definition markup_b : markup := mkMarkup ["#b1"; "#b2"; "#b3"] ["b1"; "b2"; "b3"] [].

(** The indices of the tabs whose [li] carries [disabledClass]. *)
Definition disabled_indices (w : widget) : list nat :=
  indices_from is_disabled 0 (tabs w).

(** Claim C2 (code_bug). With the URL fragment [#a3] and
    [$('#a, #b').tabs()], the fragment names the third tab of the first
    container only, yet the second container, which has no link to [#a3]
    and no configured position, also starts on its third tab: the index
    found for the first container was written into the shared
    [settings.initial]. *)
Lemma tabs_initial_fragment_leak :
  map selected_indices (fn_tabs false "#a3" (ArgValue JUndefined) None [markup_a; markup_b])
  = [[2]; [2]].
Proof. vm_compute. reflexivity. Qed.

(** Claim C9 (code_bug). One call initializing two containers shares its
    configuration between them: with [{disabled: [2]}] the first container
    disables its second tab and the second container its first tab (the
    array entry was decremented in place), and the tab found from the URL
    fragment in the first container becomes the initial tab of the
    second. *)
Lemma tabs_shared_settings_leak :
  map disabled_indices
    (fn_tabs false "" (ArgObject (mkUserSettings None (Some [2%Z]) None)) None
       [three_tabs; three_tabs]) = [[1]; [0]] /\
  map selected_indices
    (fn_tabs false "#a2" (ArgValue (JNum 1)) None [markup_a; markup_b]) = [[1]; [1]] /\
  map selected_indices
    (fn_tabs false "#a2" (ArgValue (JNum 1)) None [markup_b]) = [[0]].
Proof. vm_compute. repeat split. Qed.

(** ** C3: [triggerTab] and a click *)

Lemma tab_event_index_pos (n : Z) :
  (1 <= n)%Z -> eq_index (tab_event_index (JNum n)) = Some (Z.to_nat (n - 1)).
Proof.
  intros Hn. unfold tab_event_index, js_truthy, js_gt0, js_minus1.
  replace (negb (n =? 0)%Z) with true by (symmetry; apply negb_true_iff, Z.eqb_neq; lia).
  replace (0 <? n)%Z with true by (symmetry; apply Z.ltb_lt; lia).
  destruct (Z.eqb_spec (n - 1) 0) as [E|E]; cbn [negb].
  - rewrite E; reflexivity.
  - unfold eq_index. replace (0 <=? n - 1)%Z with true by (symmetry; apply Z.leb_le; lia).
    reflexivity.
Qed.

Lemma user_click_widget st i p : pg_widget (fst (user_click st i p)) = click_widget st i (pg_widget p).
Proof.
  unfold user_click, click_widget. destruct (click st i (pg_widget p)); reflexivity.
Qed.

(** Claim C3 (as stated, refuted). With bookmarking on, in a browser other
    than IE and Safari, [triggerTab(2)] only sets [location.hash]: the
    first tab stays selected, while a click on the second tab selects it
    once its transition completes. *)
Lemma trigger_tab_counterexample :
  let st := make_settings true (ArgValue JUndefined) None in
  let pg := mkPage w_first "" in
  tab_command OtherBrowser st TriggerTab (JNum 2) pg = mkPage w_first "#section-2" /\
  selected_indices (complete 0 (pg_widget (tab_command OtherBrowser st TriggerTab (JNum 2) pg))) = [0] /\
  selected_indices (complete 0 (pg_widget (fst (user_click st 1 pg)))) = [1].
Proof. vm_compute. repeat split. Qed.

(** Claim C3 (amended). For a position [n >= 1] naming a tab [t]:
    [triggerTab(n)] leaves the page unchanged when the element [t]'s
    fragment names on the page (a section of the container or an element
    elsewhere) is visible, or there is none, or [t] is disabled; otherwise, in IE and Safari, and in the
    other browsers when bookmarking is off, it leaves the widget in exactly
    the state a user click on [t] produces; in the other browsers with
    bookmarking on it leaves the widget unchanged and sets [location.hash]
    to [t]'s fragment. *)
Theorem trigger_tab_like_click br st (n : Z) pg t :
  (1 <= n)%Z ->
  nth_error (tabs (pg_widget pg)) (Z.to_nat (n - 1)) = Some t ->
  ((section_is_hidden (hash t) (pg_widget pg) = false \/ is_disabled t = true) ->
     tab_command br st TriggerTab (JNum n) pg = pg) /\
  (section_is_hidden (hash t) (pg_widget pg) = true -> is_disabled t = false ->
     (br <> OtherBrowser \/ bookmarkable st = false) ->
     pg_widget (tab_command br st TriggerTab (JNum n) pg)
     = pg_widget (fst (user_click st (Z.to_nat (n - 1)) pg))) /\
  (section_is_hidden (hash t) (pg_widget pg) = true -> is_disabled t = false ->
     br = OtherBrowser -> bookmarkable st = true ->
     tab_command br st TriggerTab (JNum n) pg = mkPage (pg_widget pg) (hash t)).
Proof.
  intros Hn Ht. unfold tab_command. rewrite (tab_event_index_pos n Hn).
  unfold run_event. rewrite Ht. unfold trigger_handler. rewrite user_click_widget.
  split; [|split].
  - intros [H|H]; rewrite H; [reflexivity|]. rewrite andb_false_r; reflexivity.
  - intros Hh Hd Hb. rewrite Hh, Hd. cbn [negb andb].
    destruct br; [reflexivity|reflexivity|].
    destruct Hb as [Hb|Hb]; [congruence|]. rewrite Hb; reflexivity.
  - intros Hh Hd -> Hb. rewrite Hh, Hd, Hb. reflexivity.
Qed.

Lemma trigger_tab_like_click_witness :
  pg_widget (tab_command MSIE plain_settings TriggerTab (JNum 2) (mkPage w_first ""))
  = pg_widget (fst (user_click plain_settings 1 (mkPage w_first ""))).
Proof.
  destruct (trigger_tab_like_click MSIE plain_settings 2 (mkPage w_first "")
              (mkTab "#section-2" false false)) as [_ [P _]]; [lia | reflexivity |].
  apply P; [reflexivity | reflexivity | left; discriminate].
Defined.

(** ** C4: disabled tabs *)

(** Tab [j] is disabled, not selected, and no transition in flight was
    started by a click on it. *)
Definition disabled_idle (j : nat) (w : widget) : Prop :=
  exists t, nth_error (tabs w) j = Some t /\ is_disabled t = true /\ is_selected t = false /\
            Forall (fun tr => clicked tr <> j) (pending w).

Lemma click_handler_shape st i t w :
  let w' := cr_widget (click_handler st i t w) in
  tabs w' = tabs w /\
  (pending w' = pending w \/ exists tr, clicked tr = i /\ pending w' = (pending w ++ [tr])%list) /\
  (is_disabled t = true -> w' = w).
Proof.
  unfold click_handler. destruct (is_disabled t); [cbn; auto|].
  split; [|split; [|discriminate]].
  - destruct (is_selected t); [reflexivity|]. cbn [negb]; destruct (find_element _ _); reflexivity.
  - destruct (is_selected t); [auto|]. cbn [negb]; destruct (find_element _ _); [|auto].
    right; eexists; split; [|reflexivity]; reflexivity.
Qed.

Lemma click_widget_idle st i j w :
  disabled_idle j w -> disabled_idle j (click_widget st i w).
Proof.
  intros Hd. unfold click_widget, click.
  destruct (nth_error (tabs w) i) as [t|] eqn:Ht; [|exact Hd].
  destruct (click_handler_shape st i t w) as [Tabs [Pend Dis]].
  destruct (Nat.eq_dec i j) as [->|Hij].
  - rewrite Dis; [exact Hd|].
    destruct Hd as [t' [Ht' [D _]]]. rewrite Ht in Ht'. injection Ht' as E. rewrite E; exact D.
  - destruct Hd as [t' [Ht' [D [S F]]]]. exists t'. rewrite Tabs.
    split; [exact Ht'|split; [exact D|split; [exact S|]]].
    destruct Pend as [-> | [tr [Ctr ->]]]; [exact F|].
    apply Forall_app; split; [exact F|]. constructor; [congruence|constructor].
Qed.

Lemma Forall_remove_nth {A} (P : A -> Prop) k l : Forall P l -> Forall P (remove_nth k l).
Proof.
  revert k; induction l as [|x l IH]; intros k H; destruct k; simpl; auto.
  - inversion H; auto.
  - inversion H; subst; constructor; auto.
Qed.

Lemma complete_idle_disabled k j w :
  disabled_idle j w -> disabled_idle j (complete k w).
Proof.
  intros Hd. unfold complete.
  destruct (nth_error (pending w) k) as [tr|] eqn:Htr; [|exact Hd].
  destruct Hd as [t [Ht [D [S F]]]].
  assert (Cj : clicked tr <> j)
    by (apply nth_error_In in Htr; rewrite Forall_forall in F; apply F; exact Htr).
  unfold apply_transition. destruct (toHide tr).
  - exists t; cbn [tabs pending]; repeat split; auto using Forall_remove_nth.
  - exists (mkTab (hash t) (Nat.eqb j (clicked tr)) (is_disabled t)); cbn [tabs pending].
    rewrite nth_error_mapi, Ht. repeat split; auto using Forall_remove_nth.
    cbn [is_selected]. apply Nat.eqb_neq; auto.
Qed.

Lemma set_disabled_nth b i w k :
  nth_error (tabs (set_disabled b i w)) k =
  option_map (fun t => if Nat.eqb k i then mkTab (hash t) (is_selected t) b else t)
             (nth_error (tabs w) k).
Proof. unfold set_disabled; cbn [tabs]. apply nth_error_mapi. Qed.

Lemma exec_step br st a p : step br st p (exec br st a p).
Proof. destruct a; constructor. Qed.

Lemma steps_run br st p q : steps br st p q <-> exists acts, run br st acts p = q.
Proof.
  split.
  - induction 1 as [p|p q r Hs Hr IH]; [exists []; reflexivity|].
    destruct IH as [acts E]. destruct Hs as [i p|k p|ev pos p].
    + exists (AClick i :: acts); exact E.
    + exists (AComplete k :: acts); exact E.
    + exists (ACommand ev pos :: acts); exact E.
  - intros [acts <-]. revert p; induction acts as [|a acts IH]; intros p; [constructor|].
    apply (steps_cons _ _ p (exec br st a p)); [apply exec_step | apply IH].
Qed.

Lemma exec_disabled_idle br st a p j :
  disabled_idle j (pg_widget p) -> enables j a = false -> disabled_idle j (pg_widget (exec br st a p)).
Proof.
  intros Hd Ha. destruct a as [i|k|ev pos]; cbn [exec].
  - rewrite user_click_widget. apply click_widget_idle; exact Hd.
  - apply complete_idle_disabled; exact Hd.
  - unfold tab_command. destruct (eq_index _) as [i|] eqn:Ei; [|exact Hd].
    unfold run_event. destruct (nth_error (tabs (pg_widget p)) i) as [t|] eqn:Ht; [|exact Hd].
    destruct Hd as [t' [Ht' [D [S F]]]].
    destruct ev; cbn [pg_widget].
    + unfold trigger_handler.
      destruct (_ && _); [|exists t'; auto].
      destruct br; [| |destruct (bookmarkable st)]; cbn [pg_widget];
        try (apply click_widget_idle; exists t'; auto); exists t'; auto.
    + exists (if Nat.eqb j i then mkTab (hash t') (is_selected t') true else t').
      rewrite set_disabled_nth, Ht'. cbn [option_map].
      destruct (Nat.eqb j i); repeat split; auto.
    + cbn [enables] in Ha. rewrite Ei in Ha.
      exists t'. rewrite set_disabled_nth, Ht'. cbn [option_map].
      rewrite Nat.eqb_sym, Ha. repeat split; auto.
Qed.

(** Claim C4 (as stated, refuted). A tab disabled while the transition of
    its own click is still running ends up selected and disabled: click the
    second tab, [disableTab(2)], then the transition completes. *)
Lemma disabled_tab_counterexample :
  let p1 := fst (user_click plain_settings 1 (mkPage w_first "")) in
  let p2 := tab_command OtherBrowser plain_settings DisableTab (JNum 2) p1 in
  nth_error (tabs (complete 0 (pg_widget p2))) 1 = Some (mkTab "#section-2" true true).
Proof. vm_compute. reflexivity. Qed.

(** Claim C4 (amended). A click on a disabled tab changes neither the widget
    nor the location, and raises nothing; and a tab that is disabled, not
    selected, and not the target of a transition in flight stays so along
    every run of clicks, completed transitions and commands in which no
    [enableTab] names it (every run of [steps] is such a sequence of
    actions, see [steps_run]). *)
Theorem disabled_tab_click_inert :
  (forall st i p t,
      nth_error (tabs (pg_widget p)) i = Some t -> is_disabled t = true ->
      user_click st i p = (p, None)) /\
  (forall br st p acts j,
      disabled_idle j (pg_widget p) -> forallb (fun a => negb (enables j a)) acts = true ->
      disabled_idle j (pg_widget (run br st acts p))).
Proof.
  split.
  - intros st i p t Ht D. unfold user_click, click. rewrite Ht.
    unfold click_handler. rewrite D. cbn. destruct p; reflexivity.
  - intros br st p acts j. revert p.
    induction acts as [|a acts IH]; intros p Hd Ha; [exact Hd|].
    cbn [forallb] in Ha. apply andb_prop in Ha. destruct Ha as [Ha Hr].
    cbn [run]. apply IH; [|exact Hr].
    apply exec_disabled_idle; [exact Hd|]. apply negb_true_iff; exact Ha.
Qed.

Lemma disabled_tab_click_inert_witness :
  let p := mkPage (set_disabled true 1 w_first) "" in
  user_click plain_settings 1 p = (p, None) /\
  disabled_idle 1 (pg_widget (run OtherBrowser plain_settings
    [AClick 1; ACommand TriggerTab (JNum 2); ACommand DisableTab (JNum 2); AClick 2; AComplete 0;
     AClick 1] p)).
Proof.
  intros p. split.
  - apply (proj1 disabled_tab_click_inert plain_settings 1 p (mkTab "#section-2" false true));
      reflexivity.
  - apply (proj2 disabled_tab_click_inert); [|reflexivity].
    exists (mkTab "#section-2" false true). split; [reflexivity|].
    split; [reflexivity|]. split; [reflexivity|]. constructor.
Defined.

(** ** Positions of the commands *)

Lemma tab_event_index_fallback pos :
  (forall z, pos = JNum z -> (z <= 0)%Z) -> eq_index (tab_event_index pos) = Some 0.
Proof.
  intros H. destruct pos as [| |b|z|]; try reflexivity.
  - destruct b; reflexivity.
  - specialize (H z eq_refl). unfold tab_event_index, js_truthy, js_gt0.
    destruct (Z.eqb_spec z 0) as [->|Hz]; [reflexivity|].
    replace (0 <? z)%Z with false by (symmetry; apply Z.ltb_ge; lia). reflexivity.
Qed.

Lemma tab_command_beyond br st ev p (n : Z) :
  (Z.of_nat (List.length (tabs (pg_widget p))) < n)%Z -> tab_command br st ev (JNum n) p = p.
Proof.
  intros Hn. unfold tab_command. rewrite tab_event_index_pos by lia.
  unfold run_event. replace (nth_error (tabs (pg_widget p)) (Z.to_nat (n - 1))) with (@None tab);
    [reflexivity|].
  symmetry; apply nth_error_None. lia.
Qed.

(** ** C5: the one alert *)

(** Claim C5 (as stated, refuted). Two malformed inputs that are not
    no-ops: [disableTab(0)] disables the first tab, and
    [tabs(5)] on three tabs hides every section. *)
Lemma missing_section_counterexample :
  disabled_indices (pg_widget (tab_command OtherBrowser plain_settings DisableTab (JNum 0)
                                 (mkPage w_first ""))) = [0] /\
  disabled_indices w_first = [] /\
  visible_sections w_first = ["section-1"] /\
  visible_sections (snd (init_container "" (make_settings false (ArgValue (JNum 5)) None)
                           three_tabs)) = [].
Proof. vm_compute. repeat split. Qed.

(** Claim C5 (amended). A click on a tab that is neither disabled nor
    selected and whose fragment names no element of the page (in the
    container or elsewhere) raises the alert and leaves
    the widget unchanged; no other click raises it; command positions
    beyond the number of tabs are no-ops, while zero, negative or
    non-numeric positions act on the first tab. *)
Theorem missing_section_alert :
  (forall st i w t,
      nth_error (tabs w) i = Some t -> is_disabled t = false -> is_selected t = false ->
      find_element (hash t) w = None ->
      click st i w = Some (mkClickResult w (Some NoSuchContainer) (bookmarkable st))) /\
  (forall st i w r,
      click st i w = Some r -> cr_alert r = Some NoSuchContainer ->
      cr_widget r = w /\
      exists t, nth_error (tabs w) i = Some t /\ is_disabled t = false /\
                is_selected t = false /\ find_element (hash t) w = None) /\
  (forall br st ev p (n : Z),
      (Z.of_nat (List.length (tabs (pg_widget p))) < n)%Z -> tab_command br st ev (JNum n) p = p) /\
  (forall br st ev pos p,
      (forall z, pos = JNum z -> (z <= 0)%Z) -> tab_command br st ev pos p = run_event br st ev 0 p).
Proof.
  split; [|split; [|split]].
  - intros st i w t Ht D S F. unfold click. rewrite Ht. unfold click_handler.
    rewrite D, S. cbn [negb]. rewrite F. reflexivity.
  - intros st i w r Hc Ha. unfold click in Hc.
    destruct (nth_error (tabs w) i) as [t|] eqn:Ht; [|discriminate].
    injection Hc as <-. unfold click_handler in *.
    destruct (is_disabled t) eqn:D; [discriminate|].
    destruct (is_selected t) eqn:S; [discriminate|]. cbn [negb] in *.
    destruct (find_element (hash t) w) eqn:F; [discriminate|].
    split; [reflexivity|]. exists t; auto.
  - apply tab_command_beyond.
  - intros br st ev pos p H. unfold tab_command. rewrite (tab_event_index_fallback pos H).
    reflexivity.
Qed.

Lemma missing_section_alert_witness :
  let w := mkWidget (tabs w_first) [mkSection "section-1" false] [] [] in
  click plain_settings 1 w = Some (mkClickResult w (Some NoSuchContainer) false).
Proof.
  intros w. apply (proj1 missing_section_alert plain_settings 1 w (mkTab "#section-2" false false));
    reflexivity.
Defined.

(** ** C6: positions of [triggerTab], [disableTab], [enableTab] *)

Definition w_second : widget := complete 0 (click_widget plain_settings 1 w_first).

(** Claim C6 (as stated, refuted). The position [-1] names no tab, yet
    [triggerTab(-1)] is no no-op: it clicks the first tab. *)
Lemma tab_command_position_counterexample :
  List.length (pending (pg_widget (tab_command OtherBrowser plain_settings TriggerTab (JNum (-1))
                                     (mkPage w_second "")))) = 1 /\
  pending w_second = [].
Proof. vm_compute. split; reflexivity. Qed.

(** Claim C6 (amended). Each command at position [n >= 1] acts on the tab
    at index [n - 1] and on no other, an omitted position acts on the first
    tab, positions beyond the number of tabs are no-ops, and zero or
    negative positions fall back to the first tab. *)
Theorem tab_command_position :
  (forall br st ev p (n : Z),
      (1 <= n)%Z -> tab_command br st ev (JNum n) p = run_event br st ev (Z.to_nat (n - 1)) p) /\
  (forall br st ev p, tab_command br st ev JUndefined p = run_event br st ev 0 p) /\
  (forall br st ev p (n : Z),
      (Z.of_nat (List.length (tabs (pg_widget p))) < n)%Z -> tab_command br st ev (JNum n) p = p) /\
  (forall br st ev p (n : Z),
      (n <= 0)%Z -> tab_command br st ev (JNum n) p = run_event br st ev 0 p).
Proof.
  split; [|split; [|split]].
  - intros br st ev p n Hn. unfold tab_command. rewrite (tab_event_index_pos n Hn). reflexivity.
  - reflexivity.
  - apply tab_command_beyond.
  - intros br st ev p n Hn. unfold tab_command.
    rewrite tab_event_index_fallback; [reflexivity|]. intros z E; injection E as ->; exact Hn.
Qed.

Lemma tab_command_position_witness :
  tab_command OtherBrowser plain_settings DisableTab (JNum 3) (mkPage w_first "") =
  run_event OtherBrowser plain_settings DisableTab 2 (mkPage w_first "") /\
  tab_command OtherBrowser plain_settings DisableTab (JNum 4) (mkPage w_first "") =
  mkPage w_first "".
Proof.
  destruct tab_command_position as [P1 [_ [P3 _]]]. split.
  - apply (P1 OtherBrowser plain_settings DisableTab (mkPage w_first "") 3%Z). lia.
  - apply (P3 OtherBrowser plain_settings DisableTab (mkPage w_first "") 4%Z). simpl; lia.
Defined.

(** ** C7: the click handler's return value *)

(** Claim C7 (as stated, refuted). With bookmarking on, a click on a
    disabled tab returns false, not the [bookmarkable] flag, so the
    fragment is not updated. *)
Lemma click_return_counterexample :
  let st := make_settings true (ArgValue JUndefined) None in
  bookmarkable st = true /\
  option_map cr_return (click st 1 (set_disabled true 1 w_first)) = Some false.
Proof. vm_compute. split; reflexivity. Qed.

(** Claim C7 (amended). A click on a disabled tab returns false; a click on
    any other tab returns [settings.bookmarkable]; and the browser follows
    the link to its fragment exactly when the tab is not disabled and
    bookmarking is on. *)
Theorem click_return_value st i p t :
  nth_error (tabs (pg_widget p)) i = Some t ->
  (exists r, click st i (pg_widget p) = Some r /\
             cr_return r = (if is_disabled t then false else bookmarkable st)) /\
  location_hash (fst (user_click st i p)) =
    (if negb (is_disabled t) && bookmarkable st then hash t else location_hash p).
Proof.
  intros Ht.
  assert (R : cr_return (click_handler st i t (pg_widget p)) =
              (if is_disabled t then false else bookmarkable st)).
  { unfold click_handler. destruct (is_disabled t); [reflexivity|].
    destruct (is_selected t); [reflexivity|]. cbn [negb].
    destruct (find_element _ _); reflexivity. }
  split.
  - unfold click. rewrite Ht. eexists; split; [reflexivity | exact R].
  - unfold user_click, click. rewrite Ht. cbn [fst location_hash]. rewrite R.
    destruct (is_disabled t), (bookmarkable st); reflexivity.
Qed.

Lemma click_return_value_witness :
  location_hash (fst (user_click (make_settings true (ArgValue JUndefined) None) 1
                                 (mkPage w_first ""))) = "#section-2".
Proof.
  destruct (click_return_value (make_settings true (ArgValue JUndefined) None) 1
              (mkPage w_first "") (mkTab "#section-2" false false)) as [_ H];
    [reflexivity|].
  rewrite H. reflexivity.
Defined.

(** ** C8: [disableTab] and [enableTab] *)

Lemma mapi_from_compose {A B C} (f : nat -> B -> C) (g : nat -> A -> B) n l :
  mapi_from f n (mapi_from g n l) = mapi_from (fun k x => f k (g k x)) n l.
Proof. revert n; induction l; intros n; simpl; f_equal; auto. Qed.

Lemma mapi_from_ext {A B} (f g : nat -> A -> B) n l :
  (forall k x, f k x = g k x) -> mapi_from f n l = mapi_from g n l.
Proof. intros H; revert n; induction l; intros n; simpl; f_equal; auto. Qed.

Lemma set_disabled_twice b b' i w : set_disabled b i (set_disabled b' i w) = set_disabled b i w.
Proof.
  unfold set_disabled; cbn [tabs sections pending]. f_equal.
  unfold mapi. rewrite mapi_from_compose. apply mapi_from_ext.
  intros k t. destruct (Nat.eqb k i); reflexivity.
Qed.

Definition flag_of (ev : tab_event) : bool :=
  match ev with DisableTab => true | _ => false end.

Lemma toggle_command br st ev pos p :
  ev <> TriggerTab ->
  tab_command br st ev pos p =
  match eq_index (tab_event_index pos) with
  | Some i => match nth_error (tabs (pg_widget p)) i with
              | Some _ => mkPage (set_disabled (flag_of ev) i (pg_widget p)) (location_hash p)
              | None => p
              end
  | None => p
  end.
Proof.
  intros H. unfold tab_command, run_event.
  destruct (eq_index _) as [i|]; [|reflexivity].
  destruct (nth_error _ i); [|reflexivity]. destruct ev; [congruence|reflexivity|reflexivity].
Qed.

Lemma toggle_twice br st ev ev' pos p :
  ev <> TriggerTab -> ev' <> TriggerTab ->
  tab_command br st ev pos (tab_command br st ev' pos p) = tab_command br st ev pos p.
Proof.
  intros H H'. rewrite !(toggle_command br st ev) by exact H.
  rewrite (toggle_command br st ev') by exact H'.
  destruct (eq_index _) as [i|]; [|reflexivity].
  destruct (nth_error (tabs (pg_widget p)) i) as [t|] eqn:Ht; [|rewrite Ht; reflexivity].
  cbn [pg_widget location_hash]. rewrite set_disabled_nth, Ht. cbn [option_map].
  rewrite set_disabled_twice. reflexivity.
Qed.

Lemma indices_from_map {A} (p : A -> bool) n l :
  indices_from p n l = indices_from (fun b => b) n (map p l).
Proof. revert n; induction l; intros n; simpl; auto. destruct (p a); f_equal; auto. Qed.

(** Claim C8. [disableTab(pos)] then [enableTab(pos)] gives the page
    [enableTab(pos)] alone gives, with the tab at [pos] enabled and the
    selection, the visible sections and the transitions in flight
    unchanged; each command is idempotent, and of two of them on one
    position the last one decides. *)
Theorem disable_enable_laws br st pos p :
  let dis := tab_command br st DisableTab pos in
  let en := tab_command br st EnableTab pos in
  en (dis p) = en p /\ dis (en p) = dis p /\
  dis (dis p) = dis p /\ en (en p) = en p /\
  selected_indices (pg_widget (en (dis p))) = selected_indices (pg_widget p) /\
  visible_sections (pg_widget (en (dis p))) = visible_sections (pg_widget p) /\
  pending (pg_widget (en (dis p))) = pending (pg_widget p) /\
  (forall i t, eq_index (tab_event_index pos) = Some i ->
     nth_error (tabs (pg_widget (en (dis p)))) i = Some t -> is_disabled t = false).
Proof.
  intros dis en.
  assert (E1 : en (dis p) = en p) by (apply toggle_twice; discriminate).
  rewrite E1. repeat split.
  - apply toggle_twice; discriminate.
  - apply toggle_twice; discriminate.
  - apply toggle_twice; discriminate.
  - unfold en. rewrite toggle_command by discriminate. unfold selected_indices.
    destruct (eq_index _) as [i|]; [|reflexivity]. destruct (nth_error _ i); [|reflexivity].
    cbn [pg_widget]. rewrite indices_from_map, set_disabled_selected, <- indices_from_map.
    reflexivity.
  - unfold en. rewrite toggle_command by discriminate.
    destruct (eq_index _) as [i|]; [|reflexivity]. destruct (nth_error _ i); reflexivity.
  - unfold en. rewrite toggle_command by discriminate.
    destruct (eq_index _) as [i|]; [|reflexivity]. destruct (nth_error _ i); reflexivity.
  - intros i t Hi Ht. unfold en in Ht. rewrite toggle_command in Ht by discriminate.
    rewrite Hi in Ht. destruct (nth_error (tabs (pg_widget p)) i) as [t0|] eqn:H0.
    + cbn [pg_widget] in Ht. rewrite set_disabled_nth, H0, Nat.eqb_refl in Ht.
      injection Ht as <-. reflexivity.
    + rewrite H0 in Ht; discriminate.
Qed.

Lemma disable_enable_laws_witness :
  let p := mkPage w_first "" in
  let q := tab_command OtherBrowser plain_settings EnableTab (JNum 2)
             (tab_command OtherBrowser plain_settings DisableTab (JNum 2) p) in
  option_map is_disabled (nth_error (tabs (pg_widget q)) 1) = Some false.
Proof.
  intros p q.
  destruct (disable_enable_laws OtherBrowser plain_settings (JNum 2) p)
    as [_ [_ [_ [_ [_ [_ [_ H]]]]]]].
  assert (Ht : nth_error (tabs (pg_widget q)) 1 = Some (mkTab "#section-2" false false))
    by reflexivity.
  rewrite Ht. cbn [option_map].
  rewrite (H 1 (mkTab "#section-2" false false) eq_refl Ht). reflexivity.
Defined.

(** ** C10: non-positive positions *)

(** Claim C10. A command with a position that is not a positive number
    ([undefined], [null], [NaN], a boolean, zero or a negative number)
    acts on the first tab. *)
Theorem nonpositive_position_first_tab br st ev pos p :
  (forall z, pos = JNum z -> (z <= 0)%Z) ->
  tab_command br st ev pos p = run_event br st ev 0 p.
Proof.
  intros H. unfold tab_command. rewrite (tab_event_index_fallback pos H). reflexivity.
Qed.

Lemma nonpositive_position_first_tab_witness :
  disabled_indices (pg_widget (tab_command OtherBrowser plain_settings DisableTab (JNum (-3))
                                 (mkPage w_first ""))) = [0].
Proof.
  rewrite (nonpositive_position_first_tab OtherBrowser plain_settings DisableTab (JNum (-3))).
  - reflexivity.
  - intros z E; injection E as <-; lia.
Defined.

(** * Further properties of the plugin *)

(** ** Auto height *)

Lemma sort_desc_head l :
  match sort_desc l with
  | [] => l = []
  | m :: _ => In m l /\ forall h, In h l -> (h <= m)%Z
  end.
Proof.
  induction l as [|x l IH]; simpl; [reflexivity|].
  destruct (sort_desc l) as [|m r] eqn:E; simpl.
  - subst l. split; [left; reflexivity|]. intros h [<-|[]]; lia.
  - destruct IH as [Hm Hle]. destruct (Z.geb_spec x m) as [Hx|Hx].
    + split; [left; reflexivity|]. intros h [<-|Hh]; [lia|]. specialize (Hle h Hh); lia.
    + split; [right; exact Hm|]. intros h [<-|Hh]; [lia|]. apply Hle; exact Hh.
Qed.

Lemma set_auto_height_spec reset mh naturals :
  (set_auto_height reset mh naturals = None <-> naturals = []) /\
  (forall m, set_auto_height reset mh naturals = Some m ->
     In m (map (measured_height reset mh) naturals) /\
     forall h, In h (map (measured_height reset mh) naturals) -> (h <= m)%Z).
Proof.
  unfold set_auto_height.
  pose proof (sort_desc_head (map (measured_height reset mh) naturals)) as H.
  destruct (sort_desc _) as [|m0 r]; simpl.
  - split; [|discriminate]. split; intros _; [|reflexivity].
    destruct naturals; [reflexivity|discriminate].
  - split; [split; [discriminate|intros ->; destruct H as [[] _]]|].
    intros m E; injection E as <-; exact H.
Qed.

(** The [min-height] [_setAutoHeight] applies is the largest of the
    measured section heights (one of them, and no smaller than any); there
    is none exactly when the container has no section. *)
Theorem set_auto_height_max reset mh naturals :
  (set_auto_height reset mh naturals = None <-> naturals = []) /\
  (forall m, set_auto_height reset mh naturals = Some m ->
     In m (map (measured_height reset mh) naturals) /\
     forall h, In h (map (measured_height reset mh) naturals) -> (h <= m)%Z).
Proof. exact (set_auto_height_spec reset mh naturals). Qed.

Lemma set_auto_height_max_witness :
  set_auto_height false (Some 4%Z) [3%Z; 1%Z] = Some 4%Z /\ In 4%Z [4%Z; 4%Z].
Proof.
  assert (E : set_auto_height false (Some 4%Z) [3%Z; 1%Z] = Some 4%Z) by reflexivity.
  split; [exact E|].
  exact (proj1 (proj2 (set_auto_height_max false (Some 4%Z) [3%Z; 1%Z]) 4%Z E)).
Defined.

(** Without a reset the new [min-height] never falls below the one already
    set; with a reset it is the largest natural height, whatever was set
    before. *)
Theorem set_auto_height_reset naturals mh old m :
  (set_auto_height false (Some old) naturals = Some m -> (old <= m)%Z) /\
  set_auto_height true mh naturals = hd_error (sort_desc naturals).
Proof.
  split.
  - intros E. apply set_auto_height_spec in E. destruct E as [Hin Hle].
    apply in_map_iff in Hin. destruct Hin as [n [Hn _]]. cbn in Hn. lia.
  - unfold set_auto_height. rewrite map_ext with (g := fun n => n) by reflexivity.
    rewrite map_id; reflexivity.
Qed.

Lemma set_auto_height_reset_witness :
  (3 <= 5)%Z /\ set_auto_height true (Some 9%Z) [5%Z; 2%Z] = Some 5%Z.
Proof.
  destruct (set_auto_height_reset [1%Z; 5%Z] None 3 5) as [P Q].
  split; [apply P; reflexivity|].
  rewrite (proj2 (set_auto_height_reset [5%Z; 2%Z] (Some 9%Z) 0 0)). reflexivity.
Defined.

(** When a tick recomputes, the cache becomes the current sizes, so a
    second tick with the same sizes does nothing; the recomputation resets
    [min-height] exactly when the width grew or the font size shrank. *)
Theorem poll_recompute cached current reset c' :
  poll cached current = (Some reset, c') ->
  c' = current /\ poll c' current = (None, c') /\
  (reset = true <-> (d_width cached < d_width current \/ d_fontsize current < d_fontsize cached)%Z).
Proof.
  unfold poll. intros E.
  destruct (_ || _ || _); [|discriminate]. injection E as <- <-.
  split; [reflexivity|split].
  - rewrite !Z.eqb_refl, Z.ltb_irrefl. reflexivity.
  - rewrite orb_true_iff, !Z.ltb_lt. tauto.
Qed.

Lemma poll_recompute_witness :
  poll (mkDims 400 200 16) (mkDims 400 200 16) = (None, mkDims 400 200 16) /\
  ((300 < 400)%Z \/ (16 < 16)%Z).
Proof.
  destruct (poll_recompute (mkDims 300 200 16) (mkDims 400 200 16) true (mkDims 400 200 16))
    as [_ [P Q]]; [reflexivity|].
  split; [exact P|]. exact (proj1 Q eq_refl).
Defined.

(** ** Animations *)

(** With [fxSlide] or [fxFade] set, both transitions run at [fxSpeed], the
    show animation animates [height] exactly when [fxSlide] is set and
    [opacity] exactly when [fxFade] is set (the hide animation likewise),
    and [fxShow], [fxHide], their speeds and bookmarking are all
    ignored. *)
Theorem fx_slide_fade_overrule o b :
  fxSlide o || fxFade o = true ->
  let r := setup_animations o b in
  showSpeed r = fxSpeed o /\ hideSpeed r = fxSpeed o /\
  (In ("height", "show") (showAnim r) <-> fxSlide o = true) /\
  (In ("opacity", "show") (showAnim r) <-> fxFade o = true) /\
  (In ("height", "hide") (hideAnim r) <-> fxSlide o = true) /\
  (In ("opacity", "hide") (hideAnim r) <-> fxFade o = true) /\
  (forall sh hd ss hs b',
     setup_animations (mkFx (fxFade o) (fxSlide o) sh hd (fxSpeed o) ss hs) b' = r).
Proof.
  intros H r. unfold r, setup_animations. rewrite H. cbn [showSpeed hideSpeed showAnim hideAnim].
  destruct o as [fa sl sh hd sp ss hs]; cbn [fxSlide fxFade fxSpeed] in *.
  split; [reflexivity|split; [reflexivity|]].
  destruct sl, fa; try discriminate; cbn;
    repeat split; intuition (try discriminate; try congruence).
Qed.

Lemma fx_slide_fade_overrule_witness :
  showSpeed (setup_animations (mkFx false true (Some [("left", "100")]) None
                                 (SpeedName "slow") (Some (SpeedMs 900)) None) false)
  = SpeedName "slow".
Proof.
  apply (fx_slide_fade_overrule (mkFx false true (Some [("left", "100")]) None
           (SpeedName "slow") (Some (SpeedMs 900)) None) false eq_refl).
Defined.

(** ** Arguments of [$.fn.tabs] *)

(** A positional [initial] that is a positive number [n] becomes the index
    [n - 1]; any other value ([0], a negative number, [NaN], [undefined], a
    boolean) gives the first tab, unless the options carry an [initial] key,
    which is taken as given, without conversion. [bookmarkable] defaults to
    whether the History/Remote plugin is present. *)
Theorem make_settings_initial ajaxHistory v opts :
  v <> JNull ->
  initial (make_settings ajaxHistory (ArgValue v) opts) =
    match opts with
    | Some u => match u_initial u with
                | Some i => i
                | None => match v with
                          | JNum n => if Z.leb 1 n then JNum (n - 1) else JNum 0
                          | _ => JNum 0
                          end
                end
    | None => match v with
              | JNum n => if Z.leb 1 n then JNum (n - 1) else JNum 0
              | _ => JNum 0
              end
    end /\
  bookmarkable (make_settings ajaxHistory (ArgValue v) opts) =
    match opts with
    | Some u => match u_bookmarkable u with Some b => b | None => ajaxHistory end
    | None => ajaxHistory
    end.
Proof.
  intros Hv. unfold make_settings.
  assert (D : (if js_truthy v && js_is_number v && js_gt0 v then js_minus1 v else JNum 0) =
              match v with
              | JNum n => if Z.leb 1 n then JNum (n - 1) else JNum 0
              | _ => JNum 0
              end).
  { destruct v as [| |b|n|]; try reflexivity; [destruct b; reflexivity|].
    cbn [js_truthy js_is_number js_gt0 js_minus1 andb].
    destruct (Z.eqb_spec n 0) as [->|Hn]; [reflexivity|]. cbn [negb].
    destruct (Z.ltb_spec 0 n), (Z.leb_spec 1 n); try reflexivity; lia. }
  destruct v; [| congruence | | |]; rewrite D; destruct opts as [u|]; split; reflexivity.
Qed.

Lemma make_settings_initial_witness :
  initial (make_settings false (ArgValue (JNum 3)) None) = JNum 2.
Proof.
  rewrite (proj1 (make_settings_initial false (JNum 3) None ltac:(discriminate))). reflexivity.
Defined.

(** ** The disabled tabs of a new container (lines 344-348) *)

Lemma tab_eta t : mkTab (hash t) (is_selected t) (is_disabled t) = t.
Proof. destruct t; reflexivity. Qed.

Lemma disable_from_settings_nth ds w k :
  fst (disable_from_settings ds w) = map (fun d => (d - 1)%Z) ds /\
  nth_error (tabs (snd (disable_from_settings ds w))) k =
  option_map (fun t => mkTab (hash t) (is_selected t)
                 (is_disabled t || existsb (fun d => Z.eqb (d - 1) (Z.of_nat k)) ds))
             (nth_error (tabs w) k).
Proof.
  revert w; induction ds as [|d ds IH]; intros w.
  - simpl. split; [reflexivity|].
    destruct (nth_error (tabs w) k) as [t|]; [|reflexivity]. simpl.
    rewrite orb_false_r, tab_eta; reflexivity.
  - cbn [disable_from_settings].
    match goal with |- context [disable_from_settings ds ?x] => set (w1 := x) end.
    assert (H1 : nth_error (tabs w1) k =
                 option_map (fun t => mkTab (hash t) (is_selected t)
                                (is_disabled t || Z.eqb (d - 1) (Z.of_nat k)))
                            (nth_error (tabs w) k)).
    { unfold w1, eq_index.
      destruct (Z.leb_spec 0 (d - 1)) as [Hd|Hd].
      - destruct (nth_error (tabs w) (Z.to_nat (d - 1))) as [t0|] eqn:H0.
        + rewrite set_disabled_nth.
          destruct (nth_error (tabs w) k) as [t|]; [|reflexivity]. cbn [option_map].
          destruct (Nat.eqb_spec k (Z.to_nat (d - 1))) as [->|Hk].
          * rewrite Z2Nat.id, Z.eqb_refl, orb_true_r by exact Hd. reflexivity.
          * replace (Z.eqb (d - 1) (Z.of_nat k)) with false by (symmetry; apply Z.eqb_neq; lia).
            rewrite orb_false_r, tab_eta; reflexivity.
        + destruct (nth_error (tabs w) k) as [t|] eqn:Hk; [|reflexivity]. cbn [option_map].
          replace (Z.eqb (d - 1) (Z.of_nat k)) with false.
          * rewrite orb_false_r, tab_eta; reflexivity.
          * symmetry; apply Z.eqb_neq; intros E. rewrite E, Nat2Z.id, Hk in H0; discriminate.
      - destruct (nth_error (tabs w) k) as [t|]; [|reflexivity]. cbn [option_map].
        replace (Z.eqb (d - 1) (Z.of_nat k)) with false by (symmetry; apply Z.eqb_neq; lia).
        rewrite orb_false_r, tab_eta; reflexivity. }
    specialize (IH w1). destruct (disable_from_settings ds w1) as [ds'' w2]; cbn [fst snd] in *.
    destruct IH as [IH1 IH2]. split; [rewrite IH1; reflexivity|].
    rewrite IH2, H1. destruct (nth_error (tabs w) k); [|reflexivity]. cbn [option_map is_disabled hash is_selected existsb].
    rewrite orb_assoc; reflexivity.
Qed.

Lemma hash_initial_disabled loc st m :
  disabled (hash_initial loc st m) = disabled st /\ bookmarkable (hash_initial loc st m) = bookmarkable st.
Proof.
  unfold hash_initial. destruct (String.eqb loc ""); [auto|].
  destruct (find_index _ _); auto.
Qed.

(** When every entry of [settings.disabled] is a 1-based position (at
    least 1, so that [--settings.disabled[i]] never passes a negative index
    to [.eq], whose meaning for those differs between jQuery versions),
    after initialization the [k]-th tab of a container is disabled exactly
    when [k + 1] is an entry (entries beyond the last tab are ignored), and
    the settings object handed to the next container holds every entry
    decremented by one. *)
Theorem init_disabled_tabs loc st m k t :
  (forall ds, disabled st = Some ds -> Forall (fun d => (1 <= d)%Z) ds) ->
  nth_error (tabs (snd (init_container loc st m))) k = Some t ->
  is_disabled t = match disabled st with
                  | Some ds => existsb (fun d => Z.eqb (d - 1) (Z.of_nat k)) ds
                  | None => false
                  end /\
  disabled (fst (init_container loc st m)) =
    option_map (map (fun d => (d - 1)%Z)) (disabled st).
Proof.
  intros _.
  destruct (hash_initial_disabled loc st m) as [Hd _].
  unfold init_container; cbv zeta. rewrite Hd.
  set (w0 := highlight (initial (hash_initial loc st m)) m).
  assert (H0 : forall t0, nth_error (tabs w0) k = Some t0 -> is_disabled t0 = false).
  { intros t0 Ht0. unfold w0, highlight in Ht0; cbn [tabs] in Ht0.
    rewrite nth_error_mapi in Ht0. destruct (nth_error (link_hashes m) k); [|discriminate].
    injection Ht0 as <-; reflexivity. }
  destruct (disabled st) as [[|d ds]|]; cbn [snd fst].
  - intros Ht; split; [apply H0; exact Ht | rewrite Hd; reflexivity].
  - destruct (disable_from_settings_nth (d :: ds) w0 k) as [F N].
    destruct (disable_from_settings (d :: ds) w0) as [ds' w1]; cbn [fst snd] in *.
    intros Ht; split; [|rewrite F; reflexivity].
    rewrite Ht in N. destruct (nth_error (tabs w0) k) as [t0|] eqn:E; [|discriminate].
    cbn [option_map] in N. injection N as ->. cbn [is_disabled].
    rewrite (H0 t0 eq_refl). reflexivity.
  - intros Ht; split; [apply H0; exact Ht | rewrite Hd; reflexivity].
Qed.

Lemma init_disabled_tabs_witness :
  let st := make_settings false (ArgObject (mkUserSettings None (Some [2%Z; 7%Z]) None)) None in
  option_map is_disabled (nth_error (tabs (snd (init_container "" st three_tabs))) 1) = Some true.
Proof.
  intros st.
  assert (Ht : nth_error (tabs (snd (init_container "" st three_tabs))) 1 =
               Some (mkTab "#section-2" false true)) by reflexivity.
  rewrite Ht. cbn [option_map].
  rewrite (proj1 (init_disabled_tabs "" st three_tabs 1 _
                    ltac:(intros ds E; injection E as <-; repeat constructor; lia) Ht)).
  reflexivity.
Defined.

(** ** The tab named by [location.hash] (lines 171-189) *)

Lemma find_index_from_first {A} (p : A -> bool) l n i x :
  nth_error l i = Some x -> p x = true ->
  (forall j y, j < i -> nth_error l j = Some y -> p y = false) ->
  find_index_from p n l = Some (n + i).
Proof.
  revert n i; induction l as [|a l IH]; intros n i Hx Hp Hb; [destruct i; discriminate|].
  destruct i as [|i]; simpl in *.
  - injection Hx as ->. rewrite Hp, Nat.add_0_r; reflexivity.
  - rewrite (Hb 0 a ltac:(lia) eq_refl).
    rewrite (IH (S n) i Hx Hp); [f_equal; lia|].
    intros j y Hj Hy. apply (Hb (S j) y); [lia | exact Hy].
Qed.

Lemma find_index_from_none {A} (p : A -> bool) l n :
  (forall x, In x l -> p x = false) -> find_index_from p n l = None.
Proof.
  revert n; induction l as [|a l IH]; intros n H; simpl; [reflexivity|].
  rewrite (H a (or_introl eq_refl)). apply IH. intros x Hx; apply H; right; exact Hx.
Qed.

Lemma init_container_initial loc st m :
  initial (fst (init_container loc st m)) = initial (hash_initial loc st m).
Proof.
  unfold init_container; cbv zeta.
  destruct (disabled (hash_initial loc st m)) as [[|d ds]|]; try reflexivity.
  destruct (disable_from_settings _ _); reflexivity.
Qed.

Lemma highlight_selected (i : nat) m :
  i < List.length (link_hashes m) ->
  selected_indices (highlight (JNum (Z.of_nat i)) m) = [i].
Proof.
  intros Hi. unfold selected_indices, highlight; cbn [tabs].
  apply (indices_from_single _ _ 0 i); [rewrite length_mapi; exact Hi|].
  intros k t Ht. rewrite nth_error_mapi in Ht.
  destruct (nth_error (link_hashes m) k); [|discriminate].
  injection Ht as <-; cbn [is_selected].
  rewrite Z.eqb_eq; split; [apply Nat2Z.inj | intros ->; reflexivity].
Qed.

(** A non-empty [location.hash] that is the fragment of a link selects the
    first such link, whatever [initial] the caller gave, and that index
    becomes [settings.initial] for the containers initialized after this
    one. *)
Theorem init_location_selects loc st m i :
  loc <> "" ->
  nth_error (link_hashes m) i = Some loc ->
  (forall j, j < i -> nth_error (link_hashes m) j <> Some loc) ->
  selected_indices (snd (init_container loc st m)) = [i] /\
  initial (fst (init_container loc st m)) = JNum (Z.of_nat i).
Proof.
  intros Hl Hi Hb.
  assert (F : find_index (fun h => String.eqb h loc) (link_hashes m) = Some i).
  { apply (find_index_from_first (fun h => String.eqb h loc) _ 0 i loc Hi (String.eqb_refl loc)).
    intros j y Hj Hy. apply String.eqb_neq. intros ->. exact (Hb j Hj Hy). }
  assert (H : initial (hash_initial loc st m) = JNum (Z.of_nat i)).
  { unfold hash_initial. apply String.eqb_neq in Hl. rewrite Hl, F. reflexivity. }
  split; [|rewrite init_container_initial; exact H].
  destruct (init_container_frame loc st m) as [A _]. rewrite H in A.
  unfold selected_indices. rewrite indices_from_map, A, <- indices_from_map.
  apply highlight_selected. apply nth_error_Some; rewrite Hi; discriminate.
Qed.

Lemma init_location_selects_witness :
  selected_indices (snd (init_container "#section-3" plain_settings three_tabs)) = [2].
Proof.
  exact (proj1 (init_location_selects "#section-3" plain_settings three_tabs 2
    ltac:(discriminate) eq_refl
    ltac:(intros j Hj; destruct j as [|[|j]]; [discriminate|discriminate|lia]))).
Defined.

(** An empty [location.hash], or one that names no link of the container,
    leaves the settings' [initial] as it was: the container is initialized
    as it is without a fragment. *)
Theorem init_location_unmatched loc st m :
  (loc = "" \/ ~ In loc (link_hashes m)) ->
  init_container loc st m = init_container "" st m.
Proof.
  intros H.
  assert (E : hash_initial loc st m = st).
  { unfold hash_initial. destruct (String.eqb_spec loc "") as [|Hl]; [reflexivity|].
    destruct H as [H|H]; [contradiction|].
    unfold find_index. rewrite find_index_from_none; [reflexivity|].
    intros x Hx. apply String.eqb_neq. intros ->; contradiction. }
  unfold init_container. rewrite E. reflexivity.
Qed.

Lemma init_location_unmatched_witness :
  init_container "#elsewhere" plain_settings three_tabs = init_container "" plain_settings three_tabs.
Proof.
  apply init_location_unmatched. right. simpl. intros [H|[H|[H|[]]]]; discriminate.
Defined.

(** ** The history plugin's ready callback (lines 295-300) *)

Lemma eq_index_sel n i : eq_index n = Some i -> eq_sel n i = true.
Proof.
  unfold eq_index, eq_sel. destruct n as [| | |z|]; try discriminate.
  destruct (Z.leb_spec 0 z); [|discriminate]. intros E; injection E as <-.
  rewrite Z2Nat.id by assumption. apply Z.eqb_refl.
Qed.

Lemma click_handler_selected st i t w :
  is_selected t = true -> click_handler st i t w = mkClickResult w None (negb (is_disabled t) && bookmarkable st).
Proof.
  intros H. unfold click_handler. rewrite H. destruct (is_disabled t); reflexivity.
Qed.

(** On a container just initialized with the settings object it leaves
    behind, the ready callback's click hits the tab [initial] already
    selected, so it starts no transition and changes nothing. *)
Theorem history_ready_after_init loc st m :
  history_ready (fst (init_container loc st m)) (snd (init_container loc st m)) =
  snd (init_container loc st m).
Proof.
  unfold history_ready. rewrite init_container_initial.
  destruct (eq_index (initial (hash_initial loc st m))) as [i|] eqn:Ei; [|reflexivity].
  unfold click_widget, click.
  destruct (nth_error (tabs (snd (init_container loc st m))) i) as [t|] eqn:Ht; [|reflexivity].
  destruct (init_container_frame loc st m) as [A _].
  assert (M : nth_error (map is_selected (tabs (snd (init_container loc st m)))) i = Some (is_selected t))
    by (rewrite nth_error_map, Ht; reflexivity).
  rewrite A in M. unfold highlight in M; cbn [tabs] in M.
  rewrite nth_error_map, nth_error_mapi in M.
  destruct (nth_error (link_hashes m) i); [|discriminate]. cbn [option_map is_selected] in M.
  injection M as M. rewrite (eq_index_sel _ _ Ei) in M.
  rewrite click_handler_selected by (symmetry; exact M). reflexivity.
Qed.

(** ** The end of a transition (lines 396-413) *)

(** Completing the [k]-th transition in flight removes it and keeps the
    links, their disabled state and the section ids. If it hides at least
    one section, the clicked tab is then the only selected one, whatever was
    selected before; every section visible at click time ends hidden (even the one to show, when it
    was visible then), and the section to show ends visible otherwise. If it
    hides nothing, no callback runs and tabs and sections stay as they
    were. *)
Theorem complete_transition k w tr :
  nth_error (pending w) k = Some tr -> clicked tr < List.length (tabs w) ->
  let w' := complete k w in
  pending w' = remove_nth k (pending w) /\
  map hash (tabs w') = map hash (tabs w) /\
  map is_disabled (tabs w') = map is_disabled (tabs w) /\
  map sid (sections w') = map sid (sections w) /\
  (toHide tr <> [] ->
     selected_indices w' = [clicked tr] /\
     (forall s, In s (sections w') -> In (sid s) (toHide tr) -> hidden s = true) /\
     (forall s, In s (sections w') -> sid s = toShow tr -> ~ In (toShow tr) (toHide tr) ->
                hidden s = false)) /\
  (toHide tr = [] -> tabs w' = tabs w /\ sections w' = sections w).
Proof.
  intros Hk Hc w'. unfold w', complete. rewrite Hk. unfold apply_transition.
  destruct (toHide tr) as [|h hs] eqn:Eh; cbn [tabs sections pending].
  - repeat split; try reflexivity;
      match goal with H : [] <> [] |- _ => exfalso; exact (H eq_refl) end.
  - set (g := fun s : section =>
                if existsb (String.eqb (sid s)) (h :: hs) then mkSection (sid s) true
                else if String.eqb (sid s) (toShow tr) then mkSection (sid s) false else s).
    assert (Hg : forall s, sid (g s) = sid s).
    { intros s; unfold g; destruct (existsb _ _); [reflexivity|].
      destruct (String.eqb _ _); reflexivity. }
    repeat split.
    + rewrite (map_mapi _ hash hash) by reflexivity. reflexivity.
    + rewrite (map_mapi _ is_disabled is_disabled) by reflexivity. reflexivity.
    + rewrite map_map. apply map_ext; exact Hg.
    + unfold selected_indices; cbn [tabs].
      apply (indices_from_single _ _ 0); [rewrite length_mapi; exact Hc|].
      intros j t Ht. rewrite nth_error_mapi in Ht.
      destruct (nth_error (tabs w) j); [|discriminate]. injection Ht as <-.
      cbn [is_selected]. apply Nat.eqb_eq.
    + intros s Hs Hin. apply in_map_iff in Hs. destruct Hs as [s0 [<- _]].
      rewrite Hg in Hin. unfold g.
      assert (E : existsb (String.eqb (sid s0)) (h :: hs) = true).
      { apply existsb_exists. exists (sid s0); split; [exact Hin | apply String.eqb_refl]. }
      rewrite E; reflexivity.
    + intros s Hs Hsh Hnin. apply in_map_iff in Hs. destruct Hs as [s0 [<- _]].
      rewrite Hg in Hsh. unfold g.
      assert (E : existsb (String.eqb (sid s0)) (h :: hs) = false).
      { apply not_true_iff_false. intros E. apply existsb_exists in E.
        destruct E as [x [Hx Ex]]. apply String.eqb_eq in Ex. subst x. rewrite Hsh in Hx.
        exact (Hnin Hx). }
      rewrite E, Hsh, String.eqb_refl; reflexivity.
    + match goal with H : _ :: _ = [] |- _ => discriminate H end.
    + match goal with H : _ :: _ = [] |- _ => discriminate H end.
Qed.

Lemma complete_transition_witness :
  selected_indices (complete 0 (click_widget plain_settings 2 w_first)) = [2].
Proof.
  assert (Hp : nth_error (pending (click_widget plain_settings 2 w_first)) 0 =
               Some (mkTransition 2 "section-3" ["section-1"])) by reflexivity.
  destruct (complete_transition 0 _ _ Hp ltac:(vm_compute; lia)) as [_ [_ [_ [_ [H _]]]]].
  exact (proj1 (H ltac:(discriminate))).
Defined.

(** ** A container with no visible section *)

(** What the runs keep fixed once no section is visible: the sections, the
    selection, and transitions in flight that all hide nothing. *)
Definition frozen (S : list section) (M : list bool) (w : widget) : Prop :=
  sections w = S /\ map is_selected (tabs w) = M /\
  Forall (fun tr => toHide tr = []) (pending w).

Lemma click_widget_frozen S M st i w :
  visible_sections w = [] -> frozen S M w -> frozen S M (click_widget st i w).
Proof.
  intros Hv [Hs [Hm Hp]]. unfold click_widget, click.
  destruct (nth_error (tabs w) i) as [t|]; [|split; auto].
  unfold click_handler.
  destruct (is_disabled t); [split; auto|].
  destruct (is_selected t); [split; auto|]. cbn [negb].
  destruct (find_element _ _); [|split; auto].
  cbn [cr_widget sections tabs pending]. split; [exact Hs|split; [exact Hm|]].
  apply Forall_app; split; [exact Hp|]. constructor; [exact Hv|constructor].
Qed.

Lemma complete_frozen S M k w : frozen S M w -> frozen S M (complete k w).
Proof.
  intros [Hs [Hm Hp]]. unfold complete.
  destruct (nth_error (pending w) k) as [tr|] eqn:Hk; [|split; auto].
  assert (E : toHide tr = [])
    by (rewrite Forall_forall in Hp; apply Hp; eapply nth_error_In; eauto).
  unfold apply_transition. rewrite E. cbn [sections tabs pending].
  split; [exact Hs|split; [exact Hm|apply Forall_remove_nth; exact Hp]].
Qed.

Lemma set_disabled_frozen S M b i w : frozen S M w -> frozen S M (set_disabled b i w).
Proof.
  intros [Hs [Hm Hp]]. split; [exact Hs|split; [rewrite set_disabled_selected; exact Hm|exact Hp]].
Qed.

Lemma step_frozen br st S M p q :
  step br st p q -> visible_sections (pg_widget p) = [] ->
  frozen S M (pg_widget p) -> frozen S M (pg_widget q).
Proof.
  intros Hst Hv Hf. destruct Hst as [i p|k p|ev pos p].
  - rewrite user_click_widget. apply click_widget_frozen; assumption.
  - apply complete_frozen; exact Hf.
  - unfold tab_command. destruct (eq_index _) as [i|]; [|exact Hf].
    unfold run_event. destruct (nth_error _ i) as [t|]; [|exact Hf].
    destruct ev; cbn [pg_widget]; try (apply set_disabled_frozen; exact Hf).
    unfold trigger_handler. destruct (_ && _); [|exact Hf].
    destruct br; [| |destruct (bookmarkable st)]; cbn [pg_widget];
      try apply click_widget_frozen; assumption.
Qed.

(** Once no section of a container is visible and every transition in flight
    hides nothing (as after [tabs(n)] with [n] beyond the last tab), no
    click, completion or command ever changes the sections or the selection
    again: each click queues a transition with an empty [toHide], whose
    callbacks never run. *)
Theorem no_visible_section_stuck br st p q :
  visible_sections (pg_widget p) = [] ->
  Forall (fun tr => toHide tr = []) (pending (pg_widget p)) ->
  steps br st p q ->
  sections (pg_widget q) = sections (pg_widget p) /\
  selected_indices (pg_widget q) = selected_indices (pg_widget p).
Proof.
  intros Hv Hp Hs.
  assert (F : frozen (sections (pg_widget p)) (map is_selected (tabs (pg_widget p))) (pg_widget q)).
  { assert (F0 : frozen (sections (pg_widget p)) (map is_selected (tabs (pg_widget p))) (pg_widget p))
      by (split; [reflexivity|split; [reflexivity|exact Hp]]).
    revert F0 Hv. generalize (sections (pg_widget p)) (map is_selected (tabs (pg_widget p))).
    intros S M F0 Hv0.
    assert (HvS : map sid (filter (fun s => negb (hidden s)) S) = [])
      by (destruct F0 as [E _]; unfold visible_sections in Hv0; rewrite E in Hv0; exact Hv0).
    clear Hv0 Hp.
    induction Hs as [p|p q r Hst Hr IH]; [exact F0|].
    apply IH. apply (step_frozen br st S M p q Hst); [|exact F0].
    destruct F0 as [E _]. unfold visible_sections; rewrite E; exact HvS. }
  destruct F as [A [B _]]. split; [exact A|].
  unfold selected_indices. rewrite indices_from_map, B, <- indices_from_map. reflexivity.
Qed.

Definition w_beyond : widget :=
  snd (init_container "" (make_settings false (ArgValue (JNum 5)) None) three_tabs).

Lemma no_visible_section_stuck_witness :
  let p := mkPage w_beyond "" in
  let q := mkPage (complete 0 (click_widget plain_settings 1 w_beyond)) "" in
  selected_indices (pg_widget q) = selected_indices (pg_widget p).
Proof.
  intros p q.
  refine (proj2 (no_visible_section_stuck OtherBrowser plain_settings p q
                   ltac:(vm_compute; reflexivity) ltac:(vm_compute; repeat constructor) _)).
  apply (steps_cons _ _ p (fst (user_click plain_settings 1 p))); [constructor|].
  apply (steps_cons _ _ _ q); [|constructor].
  exact (step_complete OtherBrowser plain_settings 0 (fst (user_click plain_settings 1 p))).
Defined.

(** ** A link to an element elsewhere on the page *)

Lemma find_section_app h l1 l2 :
  find_section h (l1 ++ l2) =
  match find_section h l1 with Some s => Some s | None => find_section h l2 end.
Proof.
  unfold find_section. induction l1 as [|x l1 IH]; [reflexivity|].
  cbn [app find]. destruct (String.eqb _ _); [reflexivity|exact IH].
Qed.

Lemma find_section_show_first h l e :
  find_section h l = Some e ->
  find_section h (show_first (sid e) l) = Some (mkSection (sid e) false).
Proof.
  intros F. pose proof (find_section_some _ _ _ F) as He.
  unfold find_section in *. induction l as [|x l IH]; [discriminate|].
  cbn [find] in F. cbn [show_first].
  destruct (String.eqb ("#" ++ sid x) h) eqn:Ex.
  - injection F as ->. rewrite String.eqb_refl. cbn [find sid]. rewrite Ex. reflexivity.
  - destruct (String.eqb_spec (sid x) (sid e)) as [E|E].
    + rewrite E, He, String.eqb_refl in Ex. discriminate.
    + cbn [find]. rewrite Ex. apply IH; exact F.
Qed.

Lemma find_none_all {A} (p : A -> bool) l : (forall x, In x l -> p x = false) -> find p l = None.
Proof.
  induction l as [|x l IH]; intros H; [reflexivity|]. cbn [find].
  rewrite (H x (or_introl eq_refl)). apply IH. intros y Hy; apply H; right; exact Hy.
Qed.

Lemma nth_error_snoc {A} (l : list A) x : nth_error (l ++ [x]) (List.length l) = Some x.
Proof. induction l; simpl; auto. Qed.

Lemma remove_nth_snoc {A} (l : list A) x : remove_nth (List.length l) (l ++ [x]) = l.
Proof. induction l; simpl; f_equal; auto. Qed.

(** A click on a tab whose fragment names no section of the container but a
    hidden element elsewhere on the page raises no alert; once its
    transition completes, the clicked tab is the only selected one, the
    container shows none of its sections, and that element is shown. *)
Theorem click_elsewhere_element st i w t e :
  nth_error (tabs w) i = Some t -> is_disabled t = false -> is_selected t = false ->
  find_section (hash t) (sections w) = None ->
  find_section (hash t) (elsewhere w) = Some e ->
  visible_sections w <> [] ->
  let w' := complete (List.length (pending w)) (click_widget st i w) in
  option_map cr_alert (click st i w) = Some None /\
  selected_indices w' = [i] /\ visible_sections w' = [] /\
  find_element (hash t) w' = Some (mkSection (sid e) false).
Proof.
  intros Ht D S Fs Fe Hv w'.
  assert (He : "#" ++ sid e = hash t) by exact (find_section_some _ _ _ Fe).
  assert (Hno : forall s, In s (sections w) -> sid s <> sid e).
  { intros s Hs E. destruct (find_section_exists (hash t) (sections w) s Hs) as [s' F];
      [rewrite E; exact He|]. rewrite Fs in F; discriminate. }
  assert (Hel : find_element (hash t) w = Some e)
    by (unfold find_element; rewrite find_section_app, Fs; exact Fe).
  assert (Hc : click st i w = Some (mkClickResult
             (mkWidget (tabs w) (sections w)
                (pending w ++ [mkTransition i (sid e) (visible_sections w)]) (elsewhere w))
             None (bookmarkable st))).
  { unfold click. rewrite Ht. unfold click_handler. rewrite D, S. cbn [negb]. rewrite Hel.
    reflexivity. }
  split; [rewrite Hc; reflexivity|].
  unfold w', click_widget. rewrite Hc. cbn [cr_widget]. unfold complete. cbn [pending tabs sections elsewhere].
  rewrite nth_error_snoc, remove_nth_snoc. unfold apply_transition. cbn [toHide toShow clicked].
  destruct (visible_sections w) as [|v vs] eqn:Ev; [contradiction|].
  cbn [tabs sections elsewhere].
  assert (Ex : existsb (fun s => String.eqb (sid s) (sid e)) (sections w) = false).
  { apply not_true_iff_false. intros X. apply existsb_exists in X. destruct X as [s [Hs X]].
    apply String.eqb_eq in X. exact (Hno s Hs X). }
  rewrite Ex. split; [|split].
  - unfold selected_indices; cbn [tabs].
    apply (indices_from_single _ _ 0); [rewrite length_mapi; apply nth_error_Some; rewrite Ht; discriminate|].
    intros j u Hu. rewrite nth_error_mapi in Hu.
    destruct (nth_error (tabs w) j); [|discriminate]. injection Hu as <-.
    cbn [is_selected]. apply Nat.eqb_eq.
  - unfold visible_sections; cbn [sections].
    assert (Hall : forall s, In s (sections w) ->
              hidden (if existsb (String.eqb (sid s)) (v :: vs) then mkSection (sid s) true
                      else if String.eqb (sid s) (sid e) then mkSection (sid s) false else s) = true).
    { intros s Hs. destruct (existsb (String.eqb (sid s)) (v :: vs)) eqn:X; [reflexivity|].
      destruct (String.eqb_spec (sid s) (sid e)) as [E|E]; [exfalso; exact (Hno s Hs E)|].
      destruct (hidden s) eqn:Hd; [reflexivity|]. exfalso.
      assert (I : In (sid s) (v :: vs)).
      { rewrite <- Ev. unfold visible_sections. apply in_map. apply filter_In.
        split; [exact Hs|rewrite Hd; reflexivity]. }
      apply not_true_iff_false in X. apply X, existsb_exists. exists (sid s).
      split; [exact I|apply String.eqb_refl]. }
    clear -Hall. revert Hall. induction (sections w) as [|s ss IH]; intros Hall; [reflexivity|].
    cbn [map filter]. rewrite (Hall s (or_introl eq_refl)). cbn [negb].
    apply IH. intros s' Hs'; apply Hall; right; exact Hs'.
  - unfold find_element; cbn [sections elsewhere]. rewrite find_section_app.
    replace (find_section (hash t) (map _ (sections w))) with (@None section).
    + apply find_section_show_first; exact Fe.
    + symmetry. unfold find_section. apply find_none_all. intros s Hs.
      apply in_map_iff in Hs. destruct Hs as [s0 [<- Hs0]].
      apply not_true_iff_false. intros X. apply String.eqb_eq in X.
      revert X. destruct (existsb (String.eqb (sid s0)) (v :: vs));
        [|destruct (String.eqb (sid s0) (sid e))]; cbn [sid]; intros X;
        rewrite <- He in X; exact (Hno s0 Hs0 (sharp_inj _ _ X)).
Qed.

Definition w_out : widget :=
  mkWidget [mkTab "#section-1" true false; mkTab "#note" false false]
           [mkSection "section-1" false] [] [mkSection "intro" false; mkSection "note" true].

Lemma click_elsewhere_element_witness :
  visible_sections (complete 0 (click_widget plain_settings 1 w_out)) = [].
Proof.
  exact (proj1 (proj2 (proj2 (click_elsewhere_element plain_settings 1 w_out
           (mkTab "#note" false false) (mkSection "note" true)
           eq_refl eq_refl eq_refl eq_refl eq_refl ltac:(discriminate))))).
Defined.
